(** * goldmonitor: derived metrics and regime scoring

    A shallow embedding of [src/metrics_calculator.py], of
    [CentralBankMonitor.get_latest_data] ([src/cb_monitor.py]) and of the
    history merge of [scripts/run_monthly_report.py], with the properties
    the specification states about them.

    Numbers.  Python and numpy floats are modelled by [pyfloat]: an exact
    rational, one of the two infinities, or NaN.  Rounding error is not
    modelled, and there is a single zero (no negative zero).  The constants
    of the scorer (0.02, 0.75, 1.5, 250, ...) are exact rationals. *)

From Stdlib Require Import QArith Qround ZArith List String Lia Lqa.
From stdpp Require Import gmap strings list sorting fin_maps pretty.

Local Open Scope Q_scope.

(* ===================================================================== *)
(** * Part I: the model                                                    *)
(* ===================================================================== *)

(** ** Python values *)

Module Py.

(** A float: finite, infinite or NaN. *)
Inductive pyfloat : Type :=
| Fin (q : Q)
| PInf
| NInf
| NaN.

(** An entry of a metrics dict: [None] or a float. *)
Inductive pyval : Type :=
| PyNone
| PyNum (x : pyfloat).

(** Exceptions the modelled code can raise. *)
Inductive exn : Type :=
| KeyError (key : string)
| IndexError
| ValueError.

Inductive result (A : Type) : Type :=
| Ok (a : A)
| Raise (e : exn).
Arguments Ok {A} a.
Arguments Raise {A} e.

Definition bind {A B : Type} (r : result A) (k : A -> result B) : result B :=
  match r with
  | Ok a => k a
  | Raise e => Raise e
  end.

Definition Qlt_bool (a b : Q) : bool :=
  match Qcompare a b with Lt => true | _ => false end.

(** [a < b] on floats; every comparison with NaN is false. *)
Definition flt (a b : pyfloat) : bool :=
  match a, b with
  | NaN, _ | _, NaN => false
  | Fin x, Fin y => Qlt_bool x y
  | NInf, NInf => false
  | NInf, _ => true
  | _, NInf => false
  | PInf, _ => false
  | Fin _, PInf => true
  end.

(** [a > b]. *)
Definition fgt (a b : pyfloat) : bool := flt b a.

(** [a == 0]. *)
Definition fis_zero (a : pyfloat) : bool :=
  match a with
  | Fin x => Qeq_bool x 0
  | _ => false
  end.

(** [pd.isna]. *)
Definition isna (a : pyfloat) : bool :=
  match a with
  | NaN => true
  | _ => false
  end.

(** [a - b]. *)
Definition fsub (a b : pyfloat) : pyfloat :=
  match a, b with
  | NaN, _ | _, NaN => NaN
  | Fin x, Fin y => Fin (x - y)
  | PInf, PInf => NaN
  | NInf, NInf => NaN
  | PInf, _ => PInf
  | NInf, _ => NInf
  | Fin _, PInf => NInf
  | Fin _, NInf => PInf
  end.

(** The sign of a rational as a comparison with zero. *)
Definition Qsign (x : Q) : comparison := Qcompare x 0.

(** [a / b] as numpy computes it: a division by zero raises nothing, it
    gives an infinity of the sign of the numerator, and NaN for [0 / 0]. *)
Definition fdiv (a b : pyfloat) : pyfloat :=
  match a, b with
  | NaN, _ | _, NaN => NaN
  | Fin x, Fin y =>
      match Qsign y with
      | Eq => match Qsign x with
              | Eq => NaN
              | Gt => PInf
              | Lt => NInf
              end
      | _ => Fin (x / y)
      end
  | Fin _, _ => Fin 0
  | PInf, Fin y => match Qsign y with Lt => NInf | _ => PInf end
  | NInf, Fin y => match Qsign y with Lt => PInf | _ => NInf end
  | _, _ => NaN
  end.

(** [dict.get(key, default)]. *)
Definition dict_get (d : gmap string pyval) (key : string) (dflt : pyval) : pyval :=
  match d !! key with
  | Some v => v
  | None => dflt
  end.

(** Round half to even, the rounding of Python's [round]. *)
Definition round_half_even (q : Q) : Z :=
  let f := Qfloor q in
  match Qcompare (q - inject_Z f) (1 # 2) with
  | Lt => f
  | Gt => (f + 1)%Z
  | Eq => if Z.even f then f else (f + 1)%Z
  end.

(** [round(q, 2)]. *)
Definition round2 (q : Q) : Q := inject_Z (round_half_even (q * 100)) / 100.

End Py.
Import Py.

(** ** The quarterly central-bank signal: [CentralBankMonitor.get_latest_data] *)

Module CbMonitor.

(** The dict [get_latest_data] returns, as a record of optional keys: a
    key the dict does not hold is [None].  ([all_quarters], the history
    copied along, is not read by the scorer and is left out.) *)
Record cb_data : Type := {
  error : option string;
  status : option string;
  message : option string;
  quarter : option string;
  cb_net_tonnes : option pyfloat;
  source : option string;
  validated_date : option Z;
  days_old : option Z;
  is_stale : option bool
}.

(** A row of [data/cb_reserves.csv]; [row_validated] is the validated date
    as a time stamp in seconds. *)
Record cb_row : Type := {
  row_quarter : string;
  row_tonnes : pyfloat;
  row_source : string;
  row_validated : Z
}.

(** What the monitor finds on disk: no file, a file that reading or
    parsing raises on (with the exception's text), or the parsed rows. *)
Inductive data_file : Type :=
| FileAbsent
| FileBroken (err : string)
| FileRows (rows : list cb_row).

Definition no_data (err st : string) (msg : option string) : cb_data :=
  {| error := Some err; status := Some st; message := msg;
     quarter := None; cb_net_tonnes := None; source := None;
     validated_date := None; days_old := None; is_stale := None |}.

(** [(datetime.now() - validated_date).days]: whole days, rounded down. *)
Definition days_between (now validated : Z) : Z := ((now - validated) / 86400)%Z.

Definition get_latest_data (now : Z) (f : data_file) : cb_data :=
  match f with
  | FileAbsent =>
      no_data "CB data file not found" "missing"
              (Some "Run: python scripts/manual_cb_update.py --init")
  | FileBroken e => no_data e "error" None
  | FileRows rows =>
      match last rows with
      | None => no_data "CB data file is empty" "empty" None
      | Some latest =>
          let d := days_between now (row_validated latest) in
          {| error := None;
             status := Some (if (90 <? d)%Z then "stale" else "current");
             message := None;
             quarter := Some (row_quarter latest);
             cb_net_tonnes := Some (row_tonnes latest);
             source := Some (row_source latest);
             validated_date := Some (row_validated latest);
             days_old := Some d;
             is_stale := Some (90 <? d)%Z |}
      end
  end.

End CbMonitor.
Import CbMonitor.

(** ** The regime scorer: [MetricsCalculator.calculate_regime_score] *)

Module Scorer.

(** A scoring component: (label, signed weight, marker). *)
Definition component : Type := (string * Q * string)%type.

Definition weight_of (c : component) : Q := snd (fst c).
Definition label_of (c : component) : string := fst (fst c).

(** The two locals the function updates: [score] and [components]. *)
Record scorer : Type := {
  sc_score : Q;
  sc_components : list component
}.

(** [score += d] *)
Definition add_score (d : Q) (s : scorer) : scorer :=
  {| sc_score := sc_score s + d; sc_components := sc_components s |}.

(** [components.append(c)] *)
Definition append (c : component) (s : scorer) : scorer :=
  {| sc_score := sc_score s; sc_components := sc_components s ++ [c] |}.

Definition start : scorer := {| sc_score := 0; sc_components := [] |}.

(** Real yields (lines 271-287). *)
Definition real_yields (metrics : gmap string pyval) (s : scorer) : scorer :=
  match dict_get metrics "real_yield_momentum_30d" (PyNum (Fin 0)) with
  | PyNone => s
  | PyNum ry_momentum =>
      if flt ry_momentum (Fin (-0.02)) then
        append ("Real yields falling sharply", 2, "✅") (add_score 2 s)
      else if flt ry_momentum (Fin 0) then
        append ("Real yields falling", 1, "✅") (add_score 1 s)
      else if fgt ry_momentum (Fin 0.02) then
        append ("Real yields rising sharply", -2, "❌") (add_score (-2) s)
      else if fgt ry_momentum (Fin 0) then
        append ("Real yields rising", -1, "❌") (add_score (-1) s)
      else
        append ("Real yields stable", 0, "➖") s
  end.

(** USD strength (lines 289-305). *)
Definition usd_strength (metrics : gmap string pyval) (s : scorer) : scorer :=
  match dict_get metrics "dxy_momentum_30d" (PyNum (Fin 0)) with
  | PyNone => s
  | PyNum dxy_momentum =>
      if flt dxy_momentum (Fin (-0.02)) then
        append ("USD weakening sharply", 1.5, "✅") (add_score 1.5 s)
      else if flt dxy_momentum (Fin 0) then
        append ("USD weakening", 0.75, "✅") (add_score 0.75 s)
      else if fgt dxy_momentum (Fin 0.02) then
        append ("USD strengthening sharply", -1.5, "❌") (add_score (-1.5) s)
      else if fgt dxy_momentum (Fin 0) then
        append ("USD strengthening", -0.75, "❌") (add_score (-0.75) s)
      else
        append ("USD stable", 0, "➖") s
  end.

(** [cb_data.get('status') in ['current', 'stale']] *)
Definition status_known (cb : cb_data) : bool :=
  match status cb with
  | Some st => bool_decide (st = "current"%string) || bool_decide (st = "stale"%string)
  | None => false
  end.

(** Truth value of [cb_data.get('is_stale')]: an absent key gives [None],
    which is false. *)
Definition stale_flag (cb : cb_data) : bool :=
  match is_stale cb with
  | Some b => b
  | None => false
  end.

(** [cb_data.get('cb_net_tonnes', 0)] *)
Definition cb_tonnes_of (cb : cb_data) : pyfloat :=
  match cb_net_tonnes cb with
  | Some t => t
  | None => Fin 0
  end.

(** Central-bank buying (lines 307-325).  [cb_data["days_old"]] is a
    subscript, not a [get]: it raises [KeyError] on a dict without the
    key. *)
Definition central_bank (cb : cb_data) (s : scorer) : result scorer :=
  if status_known cb then
    let cb_tonnes := cb_tonnes_of cb in
    if stale_flag cb then
      match days_old cb with
      | None => Raise (KeyError "days_old")
      | Some d =>
          Ok (append (("CB data stale (" +:+ pretty d +:+ " days)")%string, 0, "⚠️") s)
      end
    else if fgt cb_tonnes (Fin 250) then
      Ok (append ("Strong CB buying >250t", 2, "✅") (add_score 2 s))
    else if fgt cb_tonnes (Fin 100) then
      Ok (append ("Moderate CB buying", 1, "✅") (add_score 1 s))
    else if flt cb_tonnes (Fin 0) then
      Ok (append ("CB selling", -1, "❌") (add_score (-1) s))
    else
      Ok (append ("Weak CB buying", 0, "➖") s)
  else
    Ok (append ("CB data missing", 0, "⚠️") s).

(** Valuation risk (lines 327-336). *)
Definition valuation (metrics : gmap string pyval) (s : scorer) : scorer :=
  match dict_get metrics "real_gold_zscore" PyNone with
  | PyNone => s
  | PyNum zscore =>
      if isna zscore then s
      else if fgt zscore (Fin 1.5) then
        append ("Overvalued (z-score >1.5)", -1, "⚠️") (add_score (-1) s)
      else if fgt zscore (Fin 1.0) then
        append ("Elevated valuation (z-score >1.0)", 0, "⚠️") s
      else if flt zscore (Fin (-1.0)) then
        append ("Undervalued (z-score <-1.0)", 0, "💡") s
      else s
  end.

(** Interpretation of the score (lines 338-358):
    (assessment, conviction, action). *)
Definition interpret (score : Q) : string * string * string :=
  if Qle_bool 3 score then
    ("BULLISH", "High conviction for long position", "Consider increasing allocation")
  else if Qle_bool 1 score then
    ("MILDLY BULLISH", "Moderate conviction", "Maintain or slightly increase position")
  else if Qle_bool score (-3) then
    ("BEARISH", "High conviction bearish", "Consider reducing position")
  else if Qle_bool score (-1) then
    ("MILDLY BEARISH", "Caution warranted", "Maintain or reduce exposure")
  else
    ("NEUTRAL", "Mixed signals", "Hold current position").

(** The returned dict. *)
Record regime : Type := {
  score : Q;
  assessment : string;
  conviction : string;
  action : string;
  components : list component
}.

Definition finish (s : scorer) : regime :=
  let '(a, c, act) := interpret (sc_score s) in
  {| score := round2 (sc_score s);
     assessment := a;
     conviction := c;
     action := act;
     components := sc_components s |}.

(** The four categories in turn, from [score = 0] and [components = []]. *)
Definition run_categories (metrics : gmap string pyval) (cb : cb_data) : result scorer :=
  bind (central_bank cb (usd_strength metrics (real_yields metrics start)))
       (fun s => Ok (valuation metrics s)).

Definition calculate_regime_score (metrics : gmap string pyval) (cb : cb_data)
  : result regime :=
  bind (run_categories metrics cb) (fun s => Ok (finish s)).

End Scorer.
Import Scorer.

(** ** Derived metrics: z-score, momentum, gold/S&P ratio *)

Module Derived.

(** A column of a DataFrame, or a Series: its values in index order.  The
    operations below are positional, the dates play no part in them. *)
Abbreviation series := (list pyfloat).

(** The observations a rolling window counts: [rolling] turns the
    infinities into NaN before it aggregates, and NaN is skipped. *)
Definition observations (l : series) : list Q :=
  omap (fun x => match x with Fin q => Some q | _ => None end) l.

(** The trailing window of [window] positions that ends at position [i]
    (position [i] included), cut off at the start of the series. *)
Definition window_at (s : series) (window i : nat) : series :=
  drop (S i - window) (take (S i) s).

Definition Qsum (xs : list Q) : Q := foldr Qplus 0 xs.

Definition Qlen (xs : list Q) : Q := inject_Z (Z.of_nat (length xs)).

Definition mean (xs : list Q) : Q := Qsum xs / Qlen xs.

(** Sample variance ([ddof = 1], the default of [std]). *)
Definition variance (xs : list Q) : Q :=
  Qsum (map (fun x => (x - mean xs) * (x - mean xs)) xs) / (Qlen xs - 1).

(** [.mean()] of one window: NaN below [min_periods] observations. *)
Definition window_mean (min_periods : nat) (xs : list Q) : pyfloat :=
  if (min_periods <=? length xs)%nat && (0 <? length xs)%nat
  then Fin (mean xs) else NaN.

Section Zscore.

(** The square root of numpy, on the rationals that stand for floats.
    Nothing proved below depends on what it returns. *)
Variable sqrtQ : Q -> Q.

(** [.std()] of one window: NaN below [min_periods] observations, and
    with a single observation. *)
Definition window_std (min_periods : nat) (xs : list Q) : pyfloat :=
  if (min_periods <=? length xs)%nat && (1 <? length xs)%nat
  then Fin (sqrtQ (variance xs)) else NaN.

(** [series.rolling(window, min_periods).agg()]: one value per position. *)
Definition rolling (agg : list Q -> pyfloat) (s : series) (window : nat) : series :=
  (fun i => agg (observations (window_at s window i))) <$> seq 0 (length s).

(** [.replace(0, np.nan)] *)
Definition replace_zero (s : series) : series :=
  (fun x => if fis_zero x then NaN else x) <$> s.

(** [calculate_zscore] (lines 47-73).  [rolling] refuses
    [min_periods > window] with a [ValueError]. *)
Definition calculate_zscore (s : series) (window min_periods : nat)
  : result series :=
  if (window <? min_periods)%nat then Raise ValueError
  else
    let rolling_mean := rolling (window_mean min_periods) s window in
    let rolling_std := rolling (window_std min_periods) s window in
    let rolling_std := replace_zero rolling_std in
    Ok (zip_with fdiv (zip_with fsub s rolling_mean) rolling_std).

End Zscore.

(** A square root to run [calculate_zscore] with: the root rounded down
    to nine decimals. *)
Definition sqrt_down (q : Q) : Q :=
  inject_Z (Z.sqrt (Qfloor (q * 1000000000000000000))) / 1000000000.

(** [series.iloc[k]]: a negative [k] counts from the end; out of bounds
    raises [IndexError]. *)
Definition iloc (s : series) (k : Z) : result pyfloat :=
  let n := Z.of_nat (length s) in
  let j := if (k <? 0)%Z then (n + k)%Z else k in
  if (0 <=? j)%Z && (j <? n)%Z then
    match s !! Z.to_nat j with
    | Some x => Ok x
    | None => Raise IndexError
    end
  else Raise IndexError.

(** [calculate_momentum] (lines 75-99); [None] is the Python [None]. *)
Definition calculate_momentum (s : series) (days : Z) : result (option pyfloat) :=
  let n := Z.of_nat (length s) in
  if (n <? days)%Z then Ok None
  else
    bind (iloc s (-1)) (fun current =>
    bind (if (days <=? n)%Z then iloc s (- days) else iloc s 0) (fun past =>
    if isna current || isna past || fis_zero past then Ok None
    else Ok (Some (fsub (fdiv current past) (Fin 1))))).

(** [calculate_gold_sp_ratio] (lines 101-118) on the columns of the
    DataFrame, which share one index; without one of the two columns the
    result is the empty series. *)
Definition calculate_gold_sp_ratio (df : gmap string series) : series :=
  match df !! "gold_spot", df !! "sp500" with
  | Some gold_spot, Some sp500 => zip_with fdiv gold_spot sp500
  | _, _ => []
  end.

End Derived.
Import Derived.

(** ** Merging the history with the fresh data *)

Module Store.

(** A DataFrame with a date index, row by row: the date (a day number) and
    the values of the columns. *)
Abbreviation row := (list pyfloat).
Abbreviation frame := (list (Z * list pyfloat)).

(** Equality of two cells as [duplicated] sees it: by value, and NaN
    equals NaN. *)
Definition same_float (a b : pyfloat) : bool :=
  match a, b with
  | Fin x, Fin y => Qeq_bool x y
  | PInf, PInf | NInf, NInf | NaN, NaN => true
  | _, _ => false
  end.

Fixpoint same_row (r1 r2 : row) : bool :=
  match r1, r2 with
  | [], [] => true
  | x :: r1', y :: r2' => same_float x y && same_row r1' r2'
  | _, _ => false
  end.

(** [DataFrame.drop_duplicates()], with its defaults [subset=None] and
    [keep='first']: a row is dropped when an earlier row has the same
    values in every column.  Only the columns are compared; in the words
    of the pandas documentation, "Indexes, including time indexes are
    ignored".  The date is the index of these frames. *)
Fixpoint drop_duplicates_from (seen : list row) (df : frame) : frame :=
  match df with
  | [] => []
  | (d, r) :: rest =>
      if existsb (same_row r) seen then drop_duplicates_from seen rest
      else (d, r) :: drop_duplicates_from (r :: seen) rest
  end.

Definition drop_duplicates (df : frame) : frame := drop_duplicates_from [] df.

Definition date_le (a b : Z * row) : Prop := (a.1 <= b.1)%Z.

#[global] Instance date_le_dec (a b : Z * row) : Decision (date_le a b).
Proof. unfold date_le. apply _. Defined.

(** [DataFrame.sort_index()]: ascending by date.  No property below
    depends on the order it leaves among the rows of one date. *)
Definition sort_index (df : frame) : frame := merge_sort date_le df.

(** [pd.concat([history, df])]. *)
Definition concat (history df : frame) : frame := history ++ df.

(** The merge of [calculate_all_metrics] (lines 157-162): without a
    history, or with an empty one, the fresh frame is used as it is. *)
Definition full_df (history_df : option frame) (df : frame) : frame :=
  match history_df with
  | None => df
  | Some [] => df
  | Some history => sort_index (drop_duplicates (concat history df))
  end.

(** The frame [save_historical_data] writes (lines 64-85); [existing] is
    the history file when there is one. *)
Definition save_historical_data (existing : option frame) (df : frame) : frame :=
  let combined :=
    match existing with
    | Some e => drop_duplicates (concat e df)
    | None => df
    end in
  sort_index combined.

End Store.
Import Store.

(** ** Vocabulary of the properties *)

(** The rule of the specification for the band: the first line that
    matches, in this order. *)
Inductive band_rule (score : Q) : string -> Prop :=
| Band_bullish :
    3 <= score -> band_rule score "BULLISH"
| Band_mildly_bullish :
    ~ 3 <= score -> 1 <= score -> band_rule score "MILDLY BULLISH"
| Band_bearish :
    ~ 3 <= score -> ~ 1 <= score -> score <= -3 -> band_rule score "BEARISH"
| Band_mildly_bearish :
    ~ 3 <= score -> ~ 1 <= score -> ~ score <= -3 -> score <= -1 ->
    band_rule score "MILDLY BEARISH"
| Band_neutral :
    ~ 3 <= score -> ~ 1 <= score -> ~ score <= -3 -> ~ score <= -1 ->
    band_rule score "NEUTRAL".

(** The table of the fixed texts of each band: (conviction, action). *)
Definition band_texts (band : string) : option (string * string) :=
  if bool_decide (band = "BULLISH"%string) then
    Some ("High conviction for long position", "Consider increasing allocation")%string
  else if bool_decide (band = "MILDLY BULLISH"%string) then
    Some ("Moderate conviction", "Maintain or slightly increase position")%string
  else if bool_decide (band = "BEARISH"%string) then
    Some ("High conviction bearish", "Consider reducing position")%string
  else if bool_decide (band = "MILDLY BEARISH"%string) then
    Some ("Caution warranted", "Maintain or reduce exposure")%string
  else if bool_decide (band = "NEUTRAL"%string) then
    Some ("Mixed signals", "Hold current position")%string
  else None.

(** The sum of the signed weights of a component list. *)
Definition total_weight (cs : list component) : Q := Qsum (map weight_of cs).

(** The score is the sum of the weights appended so far. *)
Definition balanced (s : scorer) : Prop :=
  sc_score s == total_weight (sc_components s).

(** The score is a whole number of quarters. *)
Definition in_quarters (s : scorer) : Prop :=
  exists k : Z, sc_score s == inject_Z k / 4.

(** A signal the scorer can read its [days_old] from when it needs it: every
    dict of [get_latest_data] is one. *)
Definition signal_ok (cb : cb_data) : Prop :=
  status_known cb = true -> stale_flag cb = true -> is_Some (days_old cb).

(** The inputs of the end-to-end example of the specification. *)
Definition example_metrics : gmap string pyval :=
  <["real_yield_momentum_30d" := PyNum (Fin (-0.025))]>
    (<["dxy_momentum_30d" := PyNum (Fin (-0.01))]>
       (<["real_gold_zscore" := PyNum (Fin 0.5)]> ∅)).

Definition example_signal : cb_data :=
  get_latest_data (86400 * 100)
    (FileRows [ {| row_quarter := "Q1_2025"; row_tonnes := Fin 300;
                   row_source := "WGC"; row_validated := 86400 * 55 |} ]).

(** [calculate_momentum] in closed form, for a lookback of at least one
    day: [None] on a series shorter than the lookback, or when one of the two
    values is NaN or the earlier one is zero; otherwise [current / past - 1],
    where [current] is the last observation and [past] is
    [series.iloc[-lookback]]. *)
Definition iloc_momentum (s : series) (lookback : nat) : option pyfloat :=
  if (length s <? lookback)%nat then None
  else
    match last s, s !! (length s - lookback)%nat with
    | Some current, Some past =>
        if isna current || isna past || fis_zero past
        then None
        else Some (fsub (fdiv current past) (Fin 1))
    | _, _ => None
    end.

(** The observation [lookback] back from the last one, when the series
    reaches that far: the last observation is 0 back, the one before it is
    1 back. *)
Definition value_at_lookback (s : series) (lookback : nat) : option pyfloat :=
  if (lookback <? length s)%nat then s !! (length s - 1 - lookback)%nat else None.

(** The momentum as the specification words it: undefined on a series
    shorter than the lookback, or when an endpoint is missing or the
    lookback value is zero; otherwise [current / valueAtLookback - 1], where
    [current] is the last observation and [valueAtLookback] the observation
    [lookback] back. *)
Definition spec_momentum (s : series) (lookback : nat) : option pyfloat :=
  if (length s <? lookback)%nat then None
  else
    match last s, value_at_lookback s lookback with
    | Some current, Some value =>
        if isna current || isna value || fis_zero value
        then None
        else Some (fsub (fdiv current value) (Fin 1))
    | _, _ => None
    end.

(** A month of daily observations and one more: 1, 2, ..., 31. *)
Definition month_and_a_day : series :=
  (fun i => Fin (inject_Z (Z.of_nat i))) <$> seq 1 31.

(** A series of 252 observations: 0, 1, ..., 251. *)
Definition ramp : series := (fun i => Fin (inject_Z (Z.of_nat i))) <$> seq 0 252.

(** The dates are in ascending order. *)
Definition sorted_by_date (df : frame) : Prop := Sorted date_le df.

(** The rows of a frame at one date. *)
Definition rows_at (d : Z) (df : frame) : list row :=
  snd <$> filter (fun r => r.1 = d) df.

(** ** The score bar of the report: [ReportGenerator._create_score_bar] *)

Module Report.

(** [int(x)] of a float: the fraction is cut off, rounding toward zero. *)
Definition py_int (q : Q) : Z :=
  if Qlt_bool q 0 then Qceiling q else Qfloor q.

(** [l[k] = v] on a list: a negative [k] counts from the end, and an index
    out of range raises [IndexError]. *)
Definition list_set {A : Type} (l : list A) (k : Z) (v : A) : result (list A) :=
  let n := Z.of_nat (length l) in
  let j := if (k <? 0)%Z then (n + k)%Z else k in
  if (0 <=? j)%Z && (j <? n)%Z then Ok (<[Z.to_nat j := v]> l)
  else Raise IndexError.

(** The list [bar] of [_create_score_bar] after its two assignments
    (lines 140-145). *)
Definition score_bar_slots (score : Q) : result (list string) :=
  let normalized := (score + 5) / 10 in
  let bar_position := py_int (normalized * 20) in
  let bar := replicate 21 "─"%string in
  bind (list_set bar 10 "┼"%string) (fun bar =>
  list_set bar bar_position "█"%string).

(** [_create_score_bar] (lines 137-155). *)
Definition create_score_bar (score : Q) : result string :=
  bind (score_bar_slots score) (fun bar =>
  let bar_str := String.concat "" bar in
  Ok ("
```
Bearish                Neutral                Bullish
   -5         -3         0         +3         +5
    " +:+ bar_str +:+ "
```
")%string).

(** [cb_interp], the reading of the tonnage in [_build_cb_section]
    (lines 265-269), computed when the status is neither 'missing' nor
    'error'. *)
Definition cb_interp (cb : cb_data) : string :=
  let tonnes := cb_tonnes_of cb in
  if fgt tonnes (Fin 250) then "Strong structural buying"
  else if fgt tonnes (Fin 100) then "Moderate buying"
  else if fgt tonnes (Fin 0) then "Weak buying"
  else "Net selling".

End Report.
Import Report.

(** The slots of the bar with the block at position [p]. *)
Definition bar_with_block (p : nat) : list string :=
  <[p := "█"%string]> (<[10%nat := "┼"%string]> (replicate 21 "─"%string)).

(** The score lies between two bounds. *)
Definition score_between (lo hi : Q) (s : scorer) : Prop :=
  lo <= sc_score s /\ sc_score s <= hi.

#[global] Instance exn_eq_dec : EqDecision exn.
Proof. solve_decision. Defined.

#[global] Instance result_eq_dec {A : Type} `{EqDecision A} : EqDecision (result A).
Proof. solve_decision. Defined.

(** The bar for a score of [k] quarters: no bar at 22 quarters, the block in
    the last slot at -22 quarters, and otherwise at the slot [int(2 * score +
    10)]. *)
Definition bar_of_quarters (k : Z) : result (list string) :=
  if (k =? 22)%Z then Raise IndexError
  else if (k =? -22)%Z then Ok (bar_with_block 20)
  else Ok (bar_with_block (Z.to_nat (py_int (2 * (inject_Z k / 4) + 10)))).

(** ** The data file of the monitor: [initialize_csv], [check_for_new_report]
    and the interactive update of [scripts/manual_cb_update.py] *)

Module CbFiles.

(** The day number of a calendar date, counted from 1970-01-01 (the
    proleptic Gregorian calendar, as [pd.to_datetime] reads a date). *)
Definition days_from_civil (y m d : Z) : Z :=
  let y' := if (m <=? 2)%Z then (y - 1)%Z else y in
  let era := (y' / 400)%Z in
  let yoe := (y' - era * 400)%Z in
  let mp := if (2 <? m)%Z then (m - 3)%Z else (m + 9)%Z in
  let doy := ((153 * mp + 2) / 5 + d - 1)%Z in
  let doe := (yoe * 365 + yoe / 4 - yoe / 100 + doy)%Z in
  (era * 146097 + doe - 719468)%Z.

(** The time stamp, in seconds, of midnight at a calendar date. *)
Definition date_stamp (y m d : Z) : Z := (days_from_civil y m d * 86400)%Z.

(** Midnight of the day of [now]: what [datetime.now().date()] is read back
    as once it went through the file. *)
Definition day_start (now : Z) : Z := (now / 86400 * 86400)%Z.

(** The file [initialize_csv] writes (lines 253-280). *)
Definition initialize_csv (sample_data : bool) : data_file :=
  if sample_data then
    FileRows
      [ {| row_quarter := "Q3_2024"; row_tonnes := Fin 333.0; row_source := "WGC";
           row_validated := date_stamp 2024 11 15 |};
        {| row_quarter := "Q4_2024"; row_tonnes := Fin 290.0; row_source := "WGC";
           row_validated := date_stamp 2025 2 20 |} ]
  else FileRows [].

(** What the user types at the prompts of [interactive_update], each answer
    as the script takes it: the quarter and the source stripped, the
    tonnage through [float] ([None] when [float] raises [ValueError]), the
    two confirmations stripped and lowered. *)
Record answers : Type := {
  ans_quarter : string;
  ans_tonnes : option pyfloat;
  ans_source : string;
  ans_confirm : string;
  ans_overwrite : string
}.

(** A page of the WGC site: the request failed, or the links whose [href]
    matches 'gold-demand-trends', in page order. *)
Record report_link : Type := {
  link_text : string;
  link_href : string
}.

Inductive page : Type :=
| PageError
| PageLinks (links : list report_link).

(** The state of the monitor, kept in [cb_monitor_state.json]. *)
Record monitor_state : Type := {
  checked_quarters : list string;
  last_check : option Z
}.

Section Patterns.

(** [re.match(r'Q[1-4]_\d{4}', quarter)] found a match. *)
Variable quarter_format : string -> bool.

(** The groups 1 and 2 of
    [re.search(r'Q([1-4])[\s\-\']+(\d{2,4})', text, re.I)], when it matches. *)
Variable quarter_pattern : string -> option (string * string).

(** The row added for the answers. *)
Definition new_row (a : answers) (tonnes : pyfloat) (now : Z) : cb_row :=
  {| row_quarter := ans_quarter a;
     row_tonnes := tonnes;
     row_source := if bool_decide (ans_source a = ""%string) then "WGC"%string
                   else ans_source a;
     row_validated := day_start now |}.

(** [interactive_update] (lines 40-141): what it returns and the file it
    leaves.  A [FileBroken] file is one [pd.read_csv] raises on.  The rows
    are held as values; what [pd.read_csv] makes of the text [to_csv] wrote
    is not modelled, so nothing is said here of the next read. *)
Definition interactive_update (file : data_file) (a : answers) (now : Z)
  : bool * data_file :=
  match file with
  | FileAbsent => (false, file)
  | _ =>
      if negb (quarter_format (ans_quarter a)) then (false, file)
      else
        match ans_tonnes a with
        | None => (false, file)
        | Some tonnes =>
            if negb (bool_decide (ans_confirm a = "y"%string)) then (false, file)
            else
              match file with
              | FileRows df =>
                  if bool_decide (ans_quarter a ∈ row_quarter <$> df) then
                    if bool_decide (ans_overwrite a = "y"%string) then
                      let df := filter (fun r => row_quarter r <> ans_quarter a) df in
                      (true, FileRows (df ++ [new_row a tonnes now]))
                    else (false, file)
                  else (true, FileRows (df ++ [new_row a tonnes now]))
              | _ => (false, file)
              end
        end
  end.

(** A two-digit year is read as a year of this century (lines 103-105). *)
Definition normalize_year (year : string) : string :=
  if (String.length year =? 2)%nat then ("20" +:+ year)%string else year.

(** [found_quarters] (lines 91-108): the quarters named by the first five
    links, with their links. *)
Definition found_quarters (links : list report_link) : list (string * report_link) :=
  omap (fun report =>
          match quarter_pattern (link_text report) with
          | Some (quarter_num, year) =>
              Some (("Q" +:+ quarter_num +:+ "_" +:+ normalize_year year)%string, report)
          | None => None
          end)
       (take 5 links).

(** The address sent with the notice (lines 119-122). *)
Definition pdf_url_of (report : report_link) : string :=
  let pdf_url := link_href report in
  if negb (bool_decide (pdf_url = ""%string)) && negb (String.prefix "http" pdf_url)
  then ("https://www.gold.org" +:+ pdf_url)%string
  else pdf_url.

(** [check_for_new_report] (lines 72-137): the quarter returned, the state
    left, and the notice sent as (quarter, address).  The state is saved
    only when a new quarter is found. *)
Definition check_for_new_report (p : page) (st : monitor_state) (now : Z)
  : option string * monitor_state * option (string * string) :=
  match p with
  | PageError => (None, st, None)
  | PageLinks links =>
      match list_find (fun found => found.1 ∉ checked_quarters st) (found_quarters links) with
      | Some (_, (quarter, report_link)) =>
          (Some quarter,
           {| checked_quarters := checked_quarters st ++ [quarter];
              last_check := Some now |},
           Some (quarter, pdf_url_of report_link))
      | None => (None, st, None)
      end
  end.

(** Checks in a row, each on its page at its time: the quarters returned and
    the state left. *)
Fixpoint run_checks (visits : list (page * Z)) (st : monitor_state)
  : list (option string) * monitor_state :=
  match visits with
  | [] => ([], st)
  | (p, now) :: rest =>
      let '(found, st', _) := check_for_new_report p st now in
      let '(others, st'') := run_checks rest st' in
      (found :: others, st'')
  end.

End Patterns.

End CbFiles.
Import CbFiles.

(** The rows of a frame that carry the values [r]. *)
Definition rows_like (r : row) (df : frame) : frame :=
  filter (fun x => same_row r x.2 = true) df.

(** ** The rest of [metrics_calculator.py]: the real gold price and the
    entries [calculate_all_metrics] stores for the scorer *)

Module Metrics.

(** [a * b] on floats: zero times an infinity is NaN. *)
Definition fmul (a b : pyfloat) : pyfloat :=
  match a, b with
  | NaN, _ | _, NaN => NaN
  | Fin x, Fin y => Fin (x * y)
  | Fin x, PInf | PInf, Fin x =>
      match Qsign x with Eq => NaN | Gt => PInf | Lt => NInf end
  | Fin x, NInf | NInf, Fin x =>
      match Qsign x with Eq => NaN | Gt => NInf | Lt => PInf end
  | PInf, PInf | NInf, NInf => PInf
  | PInf, NInf | NInf, PInf => NInf
  end.

(** [calculate_real_gold_price] (lines 23-45).  [df['cpi'].iloc[0]] raises
    [IndexError] on a frame without rows. *)
Definition calculate_real_gold_price (df : gmap string series) : result series :=
  match df !! "gold_spot", df !! "cpi" with
  | Some gold_spot, Some cpi =>
      bind (iloc cpi 0) (fun first_cpi =>
      let cpi_normalized := (fun c => fmul (fdiv c first_cpi) (Fin 100)) <$> cpi in
      let real_gold :=
        zip_with fdiv gold_spot ((fun c => fdiv c (Fin 100)) <$> cpi_normalized) in
      Ok real_gold)
  | _, _ => Ok []
  end.

Section Entries.

Variable sqrtQ : Q -> Q.

(** What [calculate_all_metrics] stores under 'real_gold_zscore' (lines
    164-176): nothing when there is no real gold price, the last z-score
    when it is a number, and otherwise [None]. *)
Definition real_gold_zscore_entry (full_df : gmap string series) : result (option pyval) :=
  bind (calculate_real_gold_price full_df) (fun real_gold =>
  match real_gold with
  | [] => Ok None
  | _ :: _ =>
      bind (calculate_zscore sqrtQ real_gold 1260 252) (fun real_gold_zscore =>
      match last real_gold_zscore with
      | Some z => if isna z then Ok (Some PyNone) else Ok (Some (PyNum z))
      | None => Ok (Some PyNone)
      end)
  end).

End Entries.

(** [metrics[key] = value] when there is something to store. *)
Definition store_entry (key : string) (entry : option pyval) (metrics : gmap string pyval)
  : gmap string pyval :=
  match entry with
  | Some v => <[key := v]> metrics
  | None => metrics
  end.

(** The periods and the metrics of the momentum loop (lines 194-206). *)
Definition momentum_periods : list (string * Z) :=
  [("30d", 30%Z); ("60d", 60%Z); ("90d", 90%Z)]%string.

Definition momentum_metrics : list string :=
  ["real_yield"; "dxy"; "gold_spot"; "vix"; "gpr"]%string.

(** [f'{metric}_momentum_{period_name}'] *)
Definition momentum_key (metric period_name : string) : string :=
  (metric +:+ "_momentum_" +:+ period_name)%string.

(** The inner loop (lines 210-213): one column, every period. *)
Fixpoint store_momenta (metric : string) (column : series) (periods : list (string * Z))
    (metrics : gmap string pyval) : result (gmap string pyval) :=
  match periods with
  | [] => Ok metrics
  | (period_name, days) :: rest =>
      bind (calculate_momentum column days) (fun momentum =>
      store_momenta metric column rest
        (match momentum with
         | Some m => <[momentum_key metric period_name := PyNum m]> metrics
         | None => metrics
         end))
  end.

(** The outer loop (lines 208-213): every metric that is a column. *)
Fixpoint momentum_loop (full_df : gmap string series) (names : list string)
    (metrics : gmap string pyval) : result (gmap string pyval) :=
  match names with
  | [] => Ok metrics
  | metric :: rest =>
      bind (match full_df !! metric with
            | Some column => store_momenta metric column momentum_periods metrics
            | None => Ok metrics
            end)
           (momentum_loop full_df rest)
  end.

(** The momentum entries [calculate_all_metrics] adds to [metrics]. *)
Definition momentum_entries (full_df : gmap string series) (metrics : gmap string pyval)
  : result (gmap string pyval) :=
  momentum_loop full_df momentum_metrics metrics.

End Metrics.
Import Metrics.

(** The momentum entry of one column and one period, when there is one. *)
Definition momentum_of (full_df : gmap string series) (metric : string) (days : nat)
  : option pyval :=
  match full_df !! metric with
  | Some column =>
      match calculate_momentum column (Z.of_nat days) with
      | Ok (Some m) => Some (PyNum m)
      | _ => None
      end
  | None => None
  end.

(** The inner loop without its error channel. *)
Definition stored_momenta (metric : string) (column : series) (periods : list (string * Z))
    (metrics : gmap string pyval) : gmap string pyval :=
  foldl (fun acc p =>
           match iloc_momentum column (Z.to_nat p.2) with
           | Some m => <[momentum_key metric p.1 := PyNum m]> acc
           | None => acc
           end) metrics periods.

(** The outer loop without its error channel. *)
Definition stored_entries (full_df : gmap string series) (names : list string)
    (metrics : gmap string pyval) : gmap string pyval :=
  foldl (fun acc metric =>
           match full_df !! metric with
           | Some column => stored_momenta metric column momentum_periods acc
           | None => acc
           end) metrics names.

(* ===================================================================== *)
(** * Part II: properties                                                  *)
(* ===================================================================== *)

(** ** Comparisons and sums of rationals *)

Lemma Qlt_bool_iff (a b : Q) : Qlt_bool a b = true <-> a < b.
Proof.
  unfold Qlt_bool. rewrite Qlt_alt. destruct (Qcompare a b); split; congruence.
Qed.

Lemma flt_Fin (x y : Q) : flt (Fin x) (Fin y) = true <-> x < y.
Proof. apply Qlt_bool_iff. Qed.

Lemma fgt_Fin (x y : Q) : fgt (Fin x) (Fin y) = true <-> y < x.
Proof. apply Qlt_bool_iff. Qed.

Lemma Qsum_snoc (xs : list Q) (x : Q) : Qsum (xs ++ [x]) == Qsum xs + x.
Proof.
  induction xs as [|y xs IH]; simpl.
  - ring.
  - rewrite IH. ring.
Qed.

(** ** The scorer *)

Lemma total_weight_snoc (cs : list component) (c : component) :
  total_weight (cs ++ [c]) == total_weight cs + weight_of c.
Proof. unfold total_weight. rewrite map_app. apply Qsum_snoc. Qed.

Lemma balanced_start : balanced start.
Proof. reflexivity. Qed.

Lemma balanced_scored (s : scorer) (l m : string) (w : Q) :
  balanced s -> balanced (append (l, w, m) (add_score w s)).
Proof.
  unfold balanced. simpl. intros H.
  rewrite total_weight_snoc, H. reflexivity.
Qed.

Lemma balanced_flagged (s : scorer) (l m : string) :
  balanced s -> balanced (append (l, 0, m) s).
Proof.
  unfold balanced. simpl. intros H.
  rewrite total_weight_snoc, H. unfold weight_of. simpl. ring.
Qed.

Lemma in_quarters_start : in_quarters start.
Proof. exists 0%Z. reflexivity. Qed.

Lemma in_quarters_scored (s : scorer) (c : component) (w : Q) (k : Z) :
  w == inject_Z k / 4 -> in_quarters s -> in_quarters (append c (add_score w s)).
Proof.
  intros Hw [j Hj]. exists (j + k)%Z. simpl. rewrite Hj, Hw, inject_Z_plus. field.
Qed.

Lemma in_quarters_flagged (s : scorer) (c : component) :
  in_quarters s -> in_quarters (append c s).
Proof. intros [j Hj]. exists j. exact Hj. Qed.

Create HintDb scorer.

#[local] Hint Resolve balanced_start balanced_scored balanced_flagged : scorer.
#[local] Hint Resolve in_quarters_start in_quarters_flagged : scorer.

(** Case analysis on the tests of a category, outermost first. *)
Ltac branch :=
  match goal with
  | |- context [if ?b then _ else _] => destruct b eqn:?
  end.

(** Each of the weights the scorer adds is a whole number of quarters. *)
Ltac quarters_by k :=
  apply (in_quarters_scored _ _ _ k); [vm_compute; reflexivity | assumption].

Ltac quarters :=
  first [ assumption
        | apply in_quarters_flagged; assumption
        | quarters_by 8%Z | quarters_by 6%Z | quarters_by 4%Z | quarters_by 3%Z
        | quarters_by (-3)%Z | quarters_by (-4)%Z | quarters_by (-6)%Z
        | quarters_by (-8)%Z ].

Lemma real_yields_balanced metrics s : balanced s -> balanced (real_yields metrics s).
Proof.
  intros H. unfold real_yields.
  destruct (dict_get _ _ _) as [|ry]; [assumption|].
  repeat (branch; auto with scorer).
Qed.

Lemma usd_strength_balanced metrics s : balanced s -> balanced (usd_strength metrics s).
Proof.
  intros H. unfold usd_strength.
  destruct (dict_get _ _ _) as [|dxy]; [assumption|].
  repeat (branch; auto with scorer).
Qed.

Lemma valuation_balanced metrics s : balanced s -> balanced (valuation metrics s).
Proof.
  intros H. unfold valuation.
  destruct (dict_get _ _ _) as [|z]; [assumption|].
  repeat (branch; auto with scorer).
Qed.

Lemma central_bank_balanced cb s s' :
  balanced s -> central_bank cb s = Ok s' -> balanced s'.
Proof.
  intros H. unfold central_bank.
  repeat branch;
    try destruct (days_old cb);
    intros E; inversion E; subst; auto with scorer.
Qed.

Lemma real_yields_quarters metrics s : in_quarters s -> in_quarters (real_yields metrics s).
Proof.
  intros H. unfold real_yields.
  destruct (dict_get _ _ _) as [|ry]; [assumption|].
  repeat branch; quarters.
Qed.

Lemma usd_strength_quarters metrics s : in_quarters s -> in_quarters (usd_strength metrics s).
Proof.
  intros H. unfold usd_strength.
  destruct (dict_get _ _ _) as [|dxy]; [assumption|].
  repeat branch; quarters.
Qed.

Lemma valuation_quarters metrics s : in_quarters s -> in_quarters (valuation metrics s).
Proof.
  intros H. unfold valuation.
  destruct (dict_get _ _ _) as [|z]; [assumption|].
  repeat branch; quarters.
Qed.

Lemma central_bank_quarters cb s s' :
  in_quarters s -> central_bank cb s = Ok s' -> in_quarters s'.
Proof.
  intros H. unfold central_bank.
  repeat branch;
    try destruct (days_old cb);
    intros E; inversion E; subst; quarters.
Qed.

Lemma run_categories_invariants metrics cb s :
  run_categories metrics cb = Ok s -> balanced s /\ in_quarters s.
Proof.
  unfold run_categories, bind.
  destruct (central_bank _ _) as [s1|e] eqn:E; [|discriminate].
  intros H. inversion H; subst. split.
  - apply valuation_balanced.
    eapply central_bank_balanced; [|exact E].
    auto using usd_strength_balanced, real_yields_balanced with scorer.
  - apply valuation_quarters.
    eapply central_bank_quarters; [|exact E].
    auto using usd_strength_quarters, real_yields_quarters with scorer.
Qed.

(** Rounding to two decimals leaves a whole number of quarters alone. *)
Lemma round_half_even_whole (q : Q) (n : Z) :
  q == inject_Z n -> round_half_even q = n.
Proof.
  intros H. unfold round_half_even.
  assert (Hf : Qfloor q = n) by (rewrite H; apply Qfloor_Z).
  rewrite Hf.
  assert (Hc : Qcompare (q - inject_Z n) (1 # 2) = Lt).
  { rewrite <- Qlt_alt. setoid_replace (q - inject_Z n) with 0 using relation Qeq
      by (rewrite H; ring).
    reflexivity. }
  rewrite Hc. reflexivity.
Qed.

Lemma round2_quarters (q : Q) (k : Z) : q == inject_Z k / 4 -> round2 q == q.
Proof.
  intros H. unfold round2.
  rewrite (round_half_even_whole (q * 100) (25 * k)).
  - rewrite H, inject_Z_mult. field.
  - rewrite H, inject_Z_mult. field.
Qed.

Lemma interpret_proper (a b : Q) : a == b -> interpret a = interpret b.
Proof.
  intros H. unfold interpret.
  assert (E : forall c, Qle_bool c a = Qle_bool c b).
  { intros c. apply eq_true_iff_eq. rewrite !Qle_bool_iff, H. reflexivity. }
  assert (E' : forall c, Qle_bool a c = Qle_bool b c).
  { intros c. apply eq_true_iff_eq. rewrite !Qle_bool_iff, H. reflexivity. }
  rewrite !E, !E'. reflexivity.
Qed.

Lemma finish_fields (s : scorer) :
  score (finish s) = round2 (sc_score s) /\
  components (finish s) = sc_components s /\
  (assessment (finish s), conviction (finish s), action (finish s)) = interpret (sc_score s).
Proof. unfold finish. destruct (interpret (sc_score s)) as [[a c] act]. auto. Qed.

Lemma calculate_regime_score_inv metrics cb r :
  calculate_regime_score metrics cb = Ok r ->
  exists s, run_categories metrics cb = Ok s /\ r = finish s.
Proof.
  unfold calculate_regime_score, bind.
  destruct (run_categories metrics cb) as [s|e]; [|discriminate].
  intros H. inversion H. eauto.
Qed.

Lemma interpret_band (q : Q) :
  band_rule q (interpret q).1.1 /\
  band_texts (interpret q).1.1 = Some ((interpret q).1.2, (interpret q).2).
Proof.
  unfold interpret.
  destruct (Qle_bool 3 q) eqn:E3.
  { split; [apply Band_bullish; apply Qle_bool_iff; exact E3 | reflexivity]. }
  assert (N3 : ~ 3 <= q) by (rewrite <- Qle_bool_iff, E3; discriminate).
  destruct (Qle_bool 1 q) eqn:E1.
  { split; [apply Band_mildly_bullish; [|apply Qle_bool_iff]; assumption | reflexivity]. }
  assert (N1 : ~ 1 <= q) by (rewrite <- Qle_bool_iff, E1; discriminate).
  destruct (Qle_bool q (-3)) eqn:E3'.
  { split; [apply Band_bearish; [| |apply Qle_bool_iff]; assumption | reflexivity]. }
  assert (N3' : ~ q <= -3) by (rewrite <- Qle_bool_iff, E3'; discriminate).
  destruct (Qle_bool q (-1)) eqn:E1'.
  { split; [apply Band_mildly_bearish; [| | |apply Qle_bool_iff]; assumption | reflexivity]. }
  assert (N1' : ~ q <= -1) by (rewrite <- Qle_bool_iff, E1'; discriminate).
  split; [apply Band_neutral; assumption | reflexivity].
Qed.

(** ** Claims on the scorer *)

(** C1.  The end-to-end example: a real-yield momentum of -0.025, a dollar
    momentum of -0.01, a current, non-stale signal of 300 tonnes and a
    z-score of 0.5 score 4.75, BULLISH, "High conviction for long position",
    with exactly the three weighted entries (real yields +2, dollar +0.75,
    central bank +2) in category order and no valuation entry. *)
Theorem end_to_end_example (metrics : gmap string pyval) (cb : cb_data) :
  metrics !! "real_yield_momentum_30d" = Some (PyNum (Fin (-0.025))) ->
  metrics !! "dxy_momentum_30d" = Some (PyNum (Fin (-0.01))) ->
  metrics !! "real_gold_zscore" = Some (PyNum (Fin 0.5)) ->
  status cb = Some "current"%string ->
  is_stale cb = Some false ->
  cb_net_tonnes cb = Some (Fin 300) ->
  exists r,
    calculate_regime_score metrics cb = Ok r /\
    score r == 4.75 /\
    assessment r = "BULLISH"%string /\
    conviction r = "High conviction for long position"%string /\
    action r = "Consider increasing allocation"%string /\
    components r = [ ("Real yields falling sharply", 2, "✅");
                     ("USD weakening", 0.75, "✅");
                     ("Strong CB buying >250t", 2, "✅") ]%string.
Proof.
  intros Hry Hdxy Hz Hst Hstale Ht.
  unfold calculate_regime_score, run_categories, real_yields, usd_strength,
    central_bank, valuation, status_known, stale_flag, cb_tonnes_of, dict_get.
  rewrite Hry, Hdxy, Hz, Hst, Hstale, Ht.
  eexists. split; [reflexivity|].
  repeat split; reflexivity.
Qed.

Lemma end_to_end_example_witness :
  exists r,
    calculate_regime_score example_metrics example_signal = Ok r /\
    score r == 4.75 /\
    assessment r = "BULLISH"%string /\
    conviction r = "High conviction for long position"%string /\
    action r = "Consider increasing allocation"%string /\
    components r = [ ("Real yields falling sharply", 2, "✅");
                     ("USD weakening", 0.75, "✅");
                     ("Strong CB buying >250t", 2, "✅") ]%string.
Proof.
  apply end_to_end_example; vm_compute; reflexivity.
Defined.

(** C2.  The band is fixed by the summed score through the first rule that
    matches, in the order: score >= 3 BULLISH, score >= 1 MILDLY BULLISH,
    score <= -3 BEARISH, score <= -1 MILDLY BEARISH, otherwise NEUTRAL, and
    the conviction and action texts are those of the band.  At the
    boundaries: 3.00 is BULLISH, 2.99 MILDLY BULLISH, -3.00 BEARISH and
    -0.99 NEUTRAL. *)
Theorem band_first_match :
  (forall metrics cb r,
     calculate_regime_score metrics cb = Ok r ->
     band_rule (total_weight (components r)) (assessment r) /\
     band_rule (score r) (assessment r) /\
     band_texts (assessment r) = Some (conviction r, action r)) /\
  (interpret 3.00).1.1 = "BULLISH"%string /\
  (interpret 2.99).1.1 = "MILDLY BULLISH"%string /\
  (interpret (-3.00)).1.1 = "BEARISH"%string /\
  (interpret (-0.99)).1.1 = "NEUTRAL"%string.
Proof.
  split; [|repeat split; reflexivity].
  intros metrics cb r Hr.
  destruct (calculate_regime_score_inv _ _ _ Hr) as (s & Hs & ->).
  destruct (run_categories_invariants _ _ _ Hs) as [Hbal [k Hk]].
  destruct (finish_fields s) as (Hscore & Hcomp & Hband).
  destruct (interpret_band (sc_score s)) as [Hrule Htexts].
  assert (Ha : assessment (finish s) = (interpret (sc_score s)).1.1)
    by (rewrite <- Hband; reflexivity).
  assert (Hc : conviction (finish s) = (interpret (sc_score s)).1.2)
    by (rewrite <- Hband; reflexivity).
  assert (Hact : action (finish s) = (interpret (sc_score s)).2)
    by (rewrite <- Hband; reflexivity).
  rewrite Ha, Hc, Hact, Hcomp, Hscore.
  split; [|split].
  - rewrite (interpret_proper (sc_score s) (total_weight (sc_components s)) Hbal).
    apply interpret_band.
  - rewrite <- (interpret_proper _ _ (round2_quarters _ _ Hk)).
    apply interpret_band.
  - exact Htexts.
Qed.

Lemma band_first_match_witness :
  exists r,
    calculate_regime_score example_metrics example_signal = Ok r /\
    band_rule (total_weight (components r)) (assessment r) /\
    band_rule (score r) (assessment r) /\
    band_texts (assessment r) = Some (conviction r, action r).
Proof.
  destruct band_first_match as [H _].
  eexists. split; [vm_compute; reflexivity|].
  apply (H example_metrics example_signal). vm_compute. reflexivity.
Defined.




(** Order facts on floats used by the valuation bands. *)
Lemma flt_below_not_fgt (z : pyfloat) (a b : Q) :
  a <= b -> flt z (Fin a) = true -> fgt z (Fin b) = false.
Proof.
  intros Hab. unfold fgt. destruct z as [q| | |]; simpl; try discriminate; try reflexivity.
  intros H. apply Qlt_bool_iff in H.
  apply not_true_is_false. intros H'. apply Qlt_bool_iff in H'.
  apply (Qlt_irrefl q). apply Qlt_trans with a; [assumption|].
  apply Qle_lt_trans with b; assumption.
Qed.

Lemma fgt_above (z : pyfloat) (a b : Q) :
  a <= b -> fgt z (Fin b) = true -> fgt z (Fin a) = true.
Proof.
  intros Hab. unfold fgt. destruct z as [q| | |]; simpl; try discriminate; try reflexivity.
  intros H. apply Qlt_bool_iff in H. apply Qlt_bool_iff.
  apply Qle_lt_trans with b; assumption.
Qed.

(** C5.  With a defined z-score (neither [None] nor NaN): above 1.5 the
    valuation category takes 1 off the score with an "overvalued" entry;
    above 1.0 and not above 1.5 it appends a zero-weight "elevated" flag;
    below -1.0 a zero-weight "undervalued" flag; and otherwise it appends
    nothing and leaves the score alone. *)
Theorem valuation_category (metrics : gmap string pyval) (s : scorer) (z : pyfloat) :
  metrics !! "real_gold_zscore" = Some (PyNum z) ->
  isna z = false ->
  (fgt z (Fin 1.5) = true ->
   valuation metrics s
   = append ("Overvalued (z-score >1.5)", -1, "⚠️")%string (add_score (-1) s)) /\
  (fgt z (Fin 1.0) = true -> fgt z (Fin 1.5) = false ->
   valuation metrics s
   = append ("Elevated valuation (z-score >1.0)", 0, "⚠️")%string s) /\
  (flt z (Fin (-1.0)) = true ->
   valuation metrics s
   = append ("Undervalued (z-score <-1.0)", 0, "💡")%string s) /\
  (fgt z (Fin 1.0) = false -> flt z (Fin (-1.0)) = false ->
   valuation metrics s = s).
Proof.
  intros Hz Hna. unfold valuation, dict_get. rewrite Hz, Hna.
  repeat split.
  - intros ->. reflexivity.
  - intros H1 H15. rewrite H15, H1. reflexivity.
  - intros Hlt.
    rewrite (flt_below_not_fgt z (-1.0) 1.5), (flt_below_not_fgt z (-1.0) 1.0), Hlt;
      try assumption; try reflexivity; discriminate.
  - intros H1 Hlt.
    destruct (fgt z (Fin 1.5)) eqn:H15.
    + rewrite (fgt_above z 1.0 1.5) in H1; [discriminate|discriminate|assumption].
    + rewrite H1, Hlt. reflexivity.
Qed.

Lemma valuation_category_witness :
  valuation example_metrics start = start.
Proof.
  destruct (valuation_category example_metrics start (Fin 0.5)) as (_ & _ & _ & H);
    [reflexivity | reflexivity |].
  apply H; reflexivity.
Defined.

Lemma valuation_appends (metrics : gmap string pyval) (s : scorer) :
  sc_components (valuation metrics s)
  = sc_components s ++ sc_components (valuation metrics start).
Proof.
  unfold valuation.
  destruct (dict_get _ _ _) as [|z]; simpl; [symmetry; apply app_nil_r|].
  repeat branch; simpl; auto using app_nil_r.
Qed.

Lemma central_bank_appends (cb : cb_data) :
  signal_ok cb ->
  exists c, forall s,
    exists s', central_bank cb s = Ok s' /\ sc_components s' = sc_components s ++ [c].
Proof.
  intros Hok. unfold central_bank.
  destruct (status_known cb) eqn:Hst; [|eexists; intros s; eexists; split; reflexivity].
  destruct (stale_flag cb) eqn:Hstale.
  - destruct (Hok Hst Hstale) as [d ->].
    eexists; intros s; eexists; split; reflexivity.
  - repeat branch; eexists; intros s; eexists; split; reflexivity.
Qed.

(** Every dict of [get_latest_data] carries [days_old] when it is stale. *)
Lemma get_latest_data_signal_ok (now : Z) (f : data_file) :
  signal_ok (get_latest_data now f).
Proof.
  unfold signal_ok, get_latest_data.
  destruct f as [|e|rows]; try discriminate.
  destruct (last rows) as [latest|]; [|discriminate].
  simpl. eauto.
Qed.

(** C10.  For a signal that carries [days_old] when it is stale, as every
    signal of [get_latest_data] does, the scorer returns; the score it
    returns (rounded to two decimals) is the sum of the signed weights of
    the returned components; the central-bank category appends exactly one
    entry, whatever was appended before it; and so the list is never
    empty. *)
Theorem score_is_sum_of_weights (metrics : gmap string pyval) (cb : cb_data) :
  signal_ok cb ->
  exists r,
    calculate_regime_score metrics cb = Ok r /\
    score r == total_weight (components r) /\
    components r <> [] /\
    exists c,
      (forall s, exists s',
          central_bank cb s = Ok s' /\ sc_components s' = sc_components s ++ [c]) /\
      components r
      = sc_components (usd_strength metrics (real_yields metrics start))
          ++ [c] ++ sc_components (valuation metrics start).
Proof.
  intros Hok.
  destruct (central_bank_appends cb Hok) as [c Hc].
  destruct (Hc (usd_strength metrics (real_yields metrics start))) as (s1 & Hs1 & Hcomp).
  assert (Hrun : run_categories metrics cb = Ok (valuation metrics s1)).
  { unfold run_categories. rewrite Hs1. reflexivity. }
  exists (finish (valuation metrics s1)).
  destruct (run_categories_invariants _ _ _ Hrun) as [Hbal [k Hk]].
  destruct (finish_fields (valuation metrics s1)) as (Hscore & Hcs & _).
  assert (Hlist : components (finish (valuation metrics s1))
                  = sc_components (usd_strength metrics (real_yields metrics start))
                      ++ [c] ++ sc_components (valuation metrics start)).
  { rewrite Hcs, valuation_appends, Hcomp, <- app_assoc. reflexivity. }
  split; [|split; [|split]].
  - unfold calculate_regime_score. rewrite Hrun. reflexivity.
  - rewrite Hscore, Hcs, (round2_quarters _ _ Hk). exact Hbal.
  - rewrite Hlist. intros E. apply app_eq_nil in E as [_ E]. discriminate.
  - exists c. split; [exact Hc | exact Hlist].
Qed.

Lemma score_is_sum_of_weights_witness :
  exists r,
    calculate_regime_score example_metrics example_signal = Ok r /\
    score r == total_weight (components r) /\
    components r <> [].
Proof.
  destruct (score_is_sum_of_weights example_metrics example_signal) as (r & H1 & H2 & H3 & _).
  - intros _. vm_compute. discriminate.
  - exists r. auto.
Defined.

Lemma status_known_other (cb : cb_data) (st : string) :
  status cb = Some st ->
  st = "missing"%string \/ st = "empty"%string \/ st = "error"%string ->
  status_known cb = false.
Proof.
  intros H Hst. unfold status_known. rewrite H.
  destruct Hst as [-> | [-> | ->]]; reflexivity.
Qed.

(** C4.  The central-bank category.  It does not raise on a signal of
    [get_latest_data], nor on any signal that carries [days_old] when it is
    stale.  With status 'current' or 'stale': a stale signal contributes 0
    with a "stale" flag; otherwise more than 250 tonnes contribute +2, more
    than 100 contribute +1, less than 0 contribute -1, and anything else
    contributes 0 as "Weak CB buying".  With status 'missing', 'empty' or
    'error' a zero-weight "CB data missing" flag is appended.  And the
    signal read from a file with rows has [is_stale] true exactly when
    [days_old > 90], with status 'stale' then and 'current' otherwise. *)
Theorem central_bank_category :
  (forall cb s, signal_ok cb -> exists s', central_bank cb s = Ok s') /\
  (forall now f s, exists s', central_bank (get_latest_data now f) s = Ok s') /\
  (forall cb s d,
     status_known cb = true -> stale_flag cb = true -> days_old cb = Some d ->
     central_bank cb s
     = Ok (append (("CB data stale (" +:+ pretty d +:+ " days)")%string, 0, "⚠️"%string) s)) /\
  (forall cb s,
     status_known cb = true -> stale_flag cb = false ->
     (fgt (cb_tonnes_of cb) (Fin 250) = true ->
      central_bank cb s
      = Ok (append ("Strong CB buying >250t", 2, "✅")%string (add_score 2 s))) /\
     (fgt (cb_tonnes_of cb) (Fin 250) = false ->
      fgt (cb_tonnes_of cb) (Fin 100) = true ->
      central_bank cb s
      = Ok (append ("Moderate CB buying", 1, "✅")%string (add_score 1 s))) /\
     (flt (cb_tonnes_of cb) (Fin 0) = true ->
      central_bank cb s
      = Ok (append ("CB selling", -1, "❌")%string (add_score (-1) s))) /\
     (fgt (cb_tonnes_of cb) (Fin 100) = false ->
      flt (cb_tonnes_of cb) (Fin 0) = false ->
      central_bank cb s = Ok (append ("Weak CB buying", 0, "➖")%string s))) /\
  (forall cb s st,
     status cb = Some st ->
     st = "missing"%string \/ st = "empty"%string \/ st = "error"%string ->
     central_bank cb s = Ok (append ("CB data missing", 0, "⚠️")%string s)) /\
  (forall now rows,
     rows <> [] ->
     exists d,
       days_old (get_latest_data now (FileRows rows)) = Some d /\
       (is_stale (get_latest_data now (FileRows rows)) = Some true <-> (90 < d)%Z) /\
       (is_stale (get_latest_data now (FileRows rows)) = Some false <-> ~ (90 < d)%Z) /\
       ((90 < d)%Z ->
        status (get_latest_data now (FileRows rows)) = Some "stale"%string) /\
       (~ (90 < d)%Z ->
        status (get_latest_data now (FileRows rows)) = Some "current"%string)).
Proof.
  split; [|split; [|split; [|split; [|split]]]].
  - intros cb s Hok. destruct (central_bank_appends cb Hok) as [c Hc].
    destruct (Hc s) as (s' & Hs' & _). eauto.
  - intros now f s.
    destruct (central_bank_appends _ (get_latest_data_signal_ok now f)) as [c Hc].
    destruct (Hc s) as (s' & Hs' & _). eauto.
  - intros cb s d Hst Hstale Hd. unfold central_bank.
    rewrite Hst, Hstale, Hd. reflexivity.
  - intros cb s Hst Hstale. unfold central_bank. rewrite Hst, Hstale.
    repeat split.
    + intros ->. reflexivity.
    + intros -> ->. reflexivity.
    + intros H0.
      rewrite (flt_below_not_fgt _ 0 250), (flt_below_not_fgt _ 0 100), H0;
        try assumption; try reflexivity; discriminate.
    + intros H100 H0.
      rewrite H100, H0.
      destruct (fgt (cb_tonnes_of cb) (Fin 250)) eqn:H250; [|reflexivity].
      rewrite (fgt_above _ 100 250) in H100; [discriminate|discriminate|assumption].
  - intros cb s st Hst Hin. unfold central_bank.
    rewrite (status_known_other cb st Hst Hin). reflexivity.
  - intros now rows Hrows. unfold get_latest_data.
    destruct (last rows) as [latest|] eqn:Hlast.
    + exists (days_between now (row_validated latest)). simpl.
      destruct (Z.ltb_spec 90 (days_between now (row_validated latest))) as [Hlt|Hge].
      * repeat split; try tauto; try discriminate; intros; lia.
      * repeat split; try tauto; try discriminate; intros; lia.
    + apply last_None in Hlast. contradiction.
Qed.

Lemma central_bank_category_witness :
  central_bank example_signal start
  = Ok (append ("Strong CB buying >250t", 2, "✅")%string (add_score 2 start)).
Proof.
  destruct central_bank_category as (_ & _ & _ & H & _).
  destruct (H example_signal start) as (H250 & _); [reflexivity | reflexivity |].
  apply H250. reflexivity.
Defined.

(** ** Claims on the derived metrics *)

Lemma rolling_lookup (agg : list Q -> pyfloat) (s : series) (window i : nat) :
  (i < length s)%nat ->
  rolling agg s window !! i = Some (agg (observations (window_at s window i))).
Proof.
  intros Hi. unfold rolling.
  rewrite list_lookup_fmap, lookup_seq_lt by assumption. reflexivity.
Qed.

(** The value of the z-score at one position. *)
Lemma calculate_zscore_lookup sqrtQ (s : series) (window min_periods i : nat) value :
  (min_periods <= window)%nat ->
  s !! i = Some value ->
  exists z,
    calculate_zscore sqrtQ s window min_periods = Ok z /\
    length z = length s /\
    z !! i =
      Some (fdiv (fsub value (window_mean min_periods (observations (window_at s window i))))
                 (let sd := window_std sqrtQ min_periods (observations (window_at s window i)) in
                  if fis_zero sd then NaN else sd)).
Proof.
  intros Hmw Hi. unfold calculate_zscore.
  destruct (Nat.ltb_spec window min_periods) as [Hlt|_]; [lia|].
  eexists. split; [reflexivity|].
  assert (Hlen : (i < length s)%nat) by (apply lookup_lt_is_Some; eauto).
  split.
  - unfold replace_zero, rolling.
    rewrite !length_zip_with, !length_fmap, !length_seq. lia.
  - rewrite !lookup_zip_with, Hi. unfold replace_zero.
    rewrite list_lookup_fmap, !rolling_lookup by assumption.
    reflexivity.
Qed.

Lemma length_observations_le (l : series) : (length (observations l) <= length l)%nat.
Proof.
  unfold observations. induction l as [|x l IH]; [reflexivity|].
  destruct x; cbn in *; lia.
Qed.

Lemma length_window_at_le (s : series) (window i : nat) :
  (length (window_at s window i) <= S i)%nat.
Proof. unfold window_at. rewrite length_drop, length_take. lia. Qed.

Lemma fdiv_nan_l (b : pyfloat) : fdiv NaN b = NaN.
Proof. destruct b; reflexivity. Qed.

Lemma fdiv_nan_r (a : pyfloat) : fdiv a NaN = NaN.
Proof. destruct a; reflexivity. Qed.

Lemma fsub_nan_r (a : pyfloat) : fsub a NaN = NaN.
Proof. destruct a; reflexivity. Qed.

(** C6 (as amended).  With [min_periods <= window], the case of the
    defaults 1260 and 252, [calculate_zscore] returns one value per date.
    The value at a date is undefined (NaN) whenever fewer than
    [min_periods] observations lie in the trailing window that ends at the
    date, the observation of the date itself counted; in particular at
    each of the first [min_periods - 1] dates.  It is undefined whenever
    the rolling standard deviation at the date is exactly zero.  And
    wherever it is defined, the window holds at least [min_periods]
    observations and the value is [(value - rollingMean) / rollingStd],
    mean and deviation taken over the observations of that window. *)
Theorem rolling_zscore sqrtQ (s : series) (window min_periods : nat) :
  (min_periods <= window)%nat ->
  exists z,
    calculate_zscore sqrtQ s window min_periods = Ok z /\
    length z = length s /\
    forall i value,
      s !! i = Some value ->
      let obs := observations (window_at s window i) in
      ((S i < min_periods)%nat -> z !! i = Some NaN) /\
      ((length obs < min_periods)%nat -> z !! i = Some NaN) /\
      (forall sd,
          window_std sqrtQ min_periods obs = Fin sd -> sd == 0 -> z !! i = Some NaN) /\
      (forall v,
          z !! i = Some v -> v <> NaN ->
          (min_periods <= length obs)%nat /\
          window_mean min_periods obs = Fin (mean obs) /\
          window_std sqrtQ min_periods obs = Fin (sqrtQ (variance obs)) /\
          ~ sqrtQ (variance obs) == 0 /\
          v = fdiv (fsub value (Fin (mean obs))) (Fin (sqrtQ (variance obs)))).
Proof.
  intros Hmw.
  assert (Hok : exists z, calculate_zscore sqrtQ s window min_periods = Ok z).
  { unfold calculate_zscore.
    destruct (Nat.ltb_spec window min_periods) as [Hlt|_]; [lia|]. eauto. }
  destruct Hok as [z Hz]. exists z. split; [exact Hz|].
  assert (Hpoint : forall i value, s !! i = Some value ->
            length z = length s /\
            z !! i =
              Some (fdiv (fsub value (window_mean min_periods (observations (window_at s window i))))
                         (let sd := window_std sqrtQ min_periods
                                      (observations (window_at s window i)) in
                          if fis_zero sd then NaN else sd))).
  { intros i value Hi.
    destruct (calculate_zscore_lookup sqrtQ s window min_periods i value Hmw Hi)
      as (z' & Hz' & Hlen & Hlook).
    rewrite Hz in Hz'. inversion Hz'; subst z'. auto. }
  split.
  { destruct s as [|x s'] eqn:Es.
    - unfold calculate_zscore in Hz.
      destruct (window <? min_periods)%nat; [discriminate|].
      inversion Hz. reflexivity.
    - destruct (Hpoint 0%nat x eq_refl) as [Hlen _]. exact Hlen. }
  intros i value Hi obs.
  destruct (Hpoint i value Hi) as [_ Hlook]. fold obs in Hlook.
  assert (Hfew : (length obs < min_periods)%nat -> z !! i = Some NaN).
  { intros Hlt. rewrite Hlook. unfold window_mean.
    destruct (Nat.leb_spec min_periods (length obs)) as [Hle|_]; [lia|].
    simpl. rewrite fsub_nan_r, fdiv_nan_l. reflexivity. }
  split; [|split; [|split]].
  - intros Hearly. apply Hfew.
    pose proof (length_observations_le (window_at s window i)).
    pose proof (length_window_at_le s window i).
    unfold obs. lia.
  - exact Hfew.
  - intros sd Hsd Hzero. rewrite Hlook, Hsd. simpl.
    apply Qeq_bool_iff in Hzero. rewrite Hzero. rewrite fdiv_nan_r. reflexivity.
  - intros v Hv Hdef. rewrite Hlook in Hv. inversion Hv as [Hv']. clear Hv.
    unfold window_mean, window_std in *.
    destruct (Nat.leb_spec min_periods (length obs)) as [Hle|Hlt]; simpl in *.
    2:{ rewrite fsub_nan_r, fdiv_nan_l in Hv'. congruence. }
    destruct (Nat.ltb_spec 1 (length obs)) as [H2|H1]; simpl in *.
    2:{ rewrite fdiv_nan_r in Hv'. congruence. }
    destruct (Nat.ltb_spec 0 (length obs)) as [H0|H0]; [|lia]. simpl in *.
    destruct (Qeq_bool (sqrtQ (variance obs)) 0) eqn:Hq.
    { rewrite fdiv_nan_r in Hv'. congruence. }
    repeat split; auto.
    intros Hzero. apply Qeq_bool_iff in Hzero. congruence.
Qed.

Lemma rolling_zscore_witness :
  exists z,
    calculate_zscore sqrt_down ramp 1260 252 = Ok z /\ length z = length ramp.
Proof.
  destruct (rolling_zscore sqrt_down ramp 1260 252) as (z & Hz & Hlen & _).
  - apply Nat.leb_le. reflexivity.
  - exists z. auto.
Defined.

(** C6, as stated, fails.  In the series 0, 1, ..., 251 only 251
    observations precede the last date, fewer than the 252 of
    [min_periods], and yet the z-score at that date is defined: the window
    counts the observation of the date itself. *)
Lemma zscore_defined_after_251_observations :
  ramp !! 251%nat = Some (Fin (inject_Z 251)) /\
  length (observations (take 251 ramp)) = 251%nat /\
  (251 < 252)%nat /\
  exists z v,
    calculate_zscore sqrt_down ramp 1260 252 = Ok z /\
    z !! 251%nat = Some (Fin v) /\
    z !! 251%nat <> Some NaN /\
    z !! 250%nat = Some NaN.
Proof.
  split; [reflexivity|]. split; [reflexivity|]. split; [lia|].
  eexists. eexists. split; [vm_compute; reflexivity|].
  split; [vm_compute; reflexivity|].
  split; [vm_compute; discriminate|].
  vm_compute; reflexivity.
Qed.

(** [iloc] with a negative index inside the series reads from the end. *)
Lemma iloc_from_end (s : series) (k : Z) :
  (1 <= k <= Z.of_nat (length s))%Z ->
  exists x, s !! (length s - Z.to_nat k)%nat = Some x /\ iloc s (- k) = Ok x.
Proof.
  intros Hk. unfold iloc.
  destruct (Z.ltb_spec (- k) 0) as [_|Hge]; [|lia].
  destruct (Z.leb_spec 0 (Z.of_nat (length s) + - k)) as [_|Hneg]; [|lia].
  destruct (Z.ltb_spec (Z.of_nat (length s) + - k) (Z.of_nat (length s))) as [_|Hbig]; [|lia].
  simpl.
  replace (Z.to_nat (Z.of_nat (length s) + - k)) with (length s - Z.to_nat k)%nat by lia.
  destruct (lookup_lt_is_Some_2 s (length s - Z.to_nat k)) as [x Hx]; [lia|].
  exists x. rewrite Hx. auto.
Qed.

(** [calculate_momentum] with a lookback of at least one day. *)
Lemma calculate_momentum_total (s : series) (days : Z) :
  (1 <= days)%Z ->
  calculate_momentum s days = Ok (iloc_momentum s (Z.to_nat days)).
Proof.
  intros Hdays. unfold calculate_momentum, iloc_momentum.
  destruct (Z.ltb_spec (Z.of_nat (length s)) days) as [Hshort|Hlong].
  - destruct (Nat.ltb_spec (length s) (Z.to_nat days)) as [_|Hge]; [reflexivity|lia].
  - destruct (Nat.ltb_spec (length s) (Z.to_nat days)) as [Hlt|_]; [lia|].
    destruct (Z.leb_spec days (Z.of_nat (length s))) as [_|Hgt]; [|lia].
    destruct (iloc_from_end s 1) as (current & Hcur & Hiloc1); [lia|].
    destruct (iloc_from_end s days) as (past & Hpast & Hiloc); [lia|].
    change (-1)%Z with (- (1))%Z. rewrite Hiloc1, Hiloc. simpl.
    rewrite last_lookup.
    replace (pred (length s)) with (length s - Z.to_nat 1)%nat by lia.
    rewrite Hcur, Hpast.
    destruct (isna current || isna past || fis_zero past); reflexivity.
Qed.

(** What the code computes for a lookback of [S lookback] days is what the
    specification words for a lookback of [lookback] days. *)
Lemma iloc_momentum_one_day_short (s : series) (lookback : nat) :
  iloc_momentum s (S lookback)
  = if (length s <? S lookback)%nat then None else spec_momentum s lookback.
Proof.
  unfold iloc_momentum, spec_momentum, value_at_lookback.
  destruct (Nat.ltb_spec (length s) (S lookback)) as [Hshort|Hlong]; [reflexivity|].
  destruct (Nat.ltb_spec (length s) lookback) as [Hlt|_]; [lia|].
  destruct (Nat.ltb_spec lookback (length s)) as [_|Hge]; [|lia].
  replace (length s - 1 - lookback)%nat with (length s - S lookback)%nat by lia.
  reflexivity.
Qed.

(** C7.  [calculate_momentum] does not compare the last observation with
    the observation [days] back: it reads [series.iloc[-days]], which is the
    observation [days - 1] back.  On 100, 110, 121 with a lookback of 2 it
    returns 121/110 - 1 where the momentum of the specification is
    121/100 - 1; with the lookback of 30 that [calculate_all_metrics] uses,
    on the observations 1, ..., 31 it returns 31/2 - 1 where the momentum of
    the specification is 31/1 - 1.  For every series
    and every lookback of at least one day the result is the momentum of the
    specification for a lookback one day shorter, cut off on a series
    shorter than [days]. *)
Theorem momentum_looks_back_one_day_short :
  (calculate_momentum [Fin 100; Fin 110; Fin 121] 2 = Ok (Some (Fin (121 / 110 - 1))) /\
   spec_momentum [Fin 100; Fin 110; Fin 121] 2 = Some (Fin (121 / 100 - 1)) /\
   ~ 121 / 110 - 1 == 121 / 100 - 1) /\
  (calculate_momentum month_and_a_day 30 = Ok (Some (Fin (31 / 2 - 1))) /\
   spec_momentum month_and_a_day 30 = Some (Fin (31 / 1 - 1)) /\
   ~ 31 / 2 - 1 == 31 / 1 - 1) /\
  (forall (s : series) (days : Z),
      (1 <= days)%Z ->
      calculate_momentum s days
      = Ok (if (Z.of_nat (length s) <? days)%Z then None
            else spec_momentum s (Z.to_nat days - 1))).
Proof.
  split; [|split].
  - split; [reflexivity|]. split; [reflexivity|]. intros E. vm_compute in E. discriminate.
  - split; [reflexivity|]. split; [reflexivity|]. intros E. vm_compute in E. discriminate.
  - intros s days Hdays. rewrite (calculate_momentum_total s days Hdays).
    replace (Z.to_nat days) with (S (Z.to_nat days - 1)) at 1 by lia.
    rewrite iloc_momentum_one_day_short. f_equal.
    destruct (Nat.ltb_spec (length s) (S (Z.to_nat days - 1))) as [Hshort|Hlong];
      destruct (Z.ltb_spec (Z.of_nat (length s)) days) as [Hshort'|Hlong'];
      try reflexivity; lia.
Qed.

Lemma momentum_looks_back_one_day_short_witness :
  calculate_momentum [Fin 100; Fin 110; Fin 121] 3
  = Ok (spec_momentum [Fin 100; Fin 110; Fin 121] 2).
Proof.
  destruct momentum_looks_back_one_day_short as (_ & _ & H).
  apply (H [Fin 100; Fin 110; Fin 121] 3%Z). lia.
Defined.

(** Where the denominator is missing the ratio is missing too. *)
Lemma ratio_missing_denominator (df : gmap string series) (gold_spot sp500 : series)
    (i : nat) (x : pyfloat) :
  df !! "gold_spot" = Some gold_spot ->
  df !! "sp500" = Some sp500 ->
  gold_spot !! i = Some x ->
  sp500 !! i = Some NaN ->
  calculate_gold_sp_ratio df !! i = Some NaN.
Proof.
  intros Hg Hs Hx Hy. unfold calculate_gold_sp_ratio.
  rewrite Hg, Hs, lookup_zip_with, Hx, Hy. simpl. rewrite fdiv_nan_r. reflexivity.
Qed.

(** Where the denominator is zero and the numerator positive, the ratio is
    plus infinity. *)
Lemma ratio_zero_denominator (df : gmap string series) (gold_spot sp500 : series)
    (i : nat) (x y : Q) :
  df !! "gold_spot" = Some gold_spot ->
  df !! "sp500" = Some sp500 ->
  gold_spot !! i = Some (Fin x) ->
  sp500 !! i = Some (Fin y) ->
  y == 0 -> 0 < x ->
  calculate_gold_sp_ratio df !! i = Some PInf.
Proof.
  intros Hg Hs Hx Hy Hzero Hpos. unfold calculate_gold_sp_ratio.
  rewrite Hg, Hs, lookup_zip_with, Hx, Hy. simpl. unfold Qsign.
  apply Qeq_alt in Hzero. apply Qgt_alt in Hpos. rewrite Hzero, Hpos. reflexivity.
Qed.

(** C8, at the input on which the code departs from it: gold at 2000 and
    the equity index at 0 on the one date of the frame.  The ratio at that
    date is plus infinity, not an undefined value: [calculate_gold_sp_ratio]
    divides without the guard that [calculate_zscore] and
    [calculate_momentum] put on a zero denominator. *)
Theorem ratio_by_zero_is_infinite :
  calculate_gold_sp_ratio (<["gold_spot" := [Fin 2000]]> (<["sp500" := [Fin 0]]> ∅))
  = [PInf].
Proof. vm_compute. reflexivity. Qed.

(** ** Claims on the merge *)

Lemma date_le_total : Total date_le.
Proof. intros a b. unfold date_le. lia. Qed.

(** X22.  Whatever the inputs, the frame written by [save_historical_data] is
    in ascending order of date, and so is the merged frame of
    [calculate_all_metrics] when there is a history to merge. *)
Lemma merge_sorted (history df : frame) :
  sorted_by_date (save_historical_data (Some history) df) /\
  (history <> [] -> sorted_by_date (full_df (Some history) df)).
Proof.
  unfold sorted_by_date, save_historical_data, full_df, sort_index. split.
  - apply (Sorted_merge_sort date_le (Total0 := date_le_total)).
  - intros Hne. destruct history as [|r h]; [contradiction|].
    apply (Sorted_merge_sort date_le (Total0 := date_le_total)).
Qed.

Lemma same_float_refl (x : pyfloat) : same_float x x = true.
Proof. destruct x; simpl; auto. apply Qeq_bool_iff. reflexivity. Qed.

Lemma same_row_refl (r : row) : same_row r r = true.
Proof.
  induction r as [|x r IH]; simpl; [reflexivity|].
  rewrite same_float_refl, IH. reflexivity.
Qed.

(** Of two rows with the same values the second is dropped, whatever the
    two dates are. *)
Lemma drop_duplicates_ignores_date (d1 d2 : Z) (r : row) :
  drop_duplicates [(d1, r); (d2, r)] = [(d1, r)].
Proof.
  unfold drop_duplicates. simpl. rewrite same_row_refl. reflexivity.
Qed.

(** C9, at inputs on which the code departs from it.  [drop_duplicates]
    compares the values of the rows and not their dates.  First: the
    history holds 5 at day 1 and 7 at day 2, the fresh frame holds 5 at day
    2; day 2 is shared with differing values, and the fresh row is dropped
    because day 1 has its value, so only one row of day 2 is kept.  Second:
    history and fresh frame both hold 5 at day 2, and the history holds 5
    at day 1 too; both rows of day 2 are dropped, so the shared date has no
    row at all. *)
Theorem merge_drops_rows_by_value :
  save_historical_data (Some [(1%Z, [Fin 5]); (2%Z, [Fin 7])]) [(2%Z, [Fin 5])]
  = [(1%Z, [Fin 5]); (2%Z, [Fin 7])] /\
  full_df (Some [(1%Z, [Fin 5]); (2%Z, [Fin 7])]) [(2%Z, [Fin 5])]
  = [(1%Z, [Fin 5]); (2%Z, [Fin 7])] /\
  rows_at 2 (save_historical_data (Some [(1%Z, [Fin 5]); (2%Z, [Fin 7])]) [(2%Z, [Fin 5])])
  = [[Fin 7]] /\
  save_historical_data (Some [(1%Z, [Fin 5]); (2%Z, [Fin 5])]) [(2%Z, [Fin 5])]
  = [(1%Z, [Fin 5])] /\
  full_df (Some [(1%Z, [Fin 5]); (2%Z, [Fin 5])]) [(2%Z, [Fin 5])]
  = [(1%Z, [Fin 5])] /\
  rows_at 2 (save_historical_data (Some [(1%Z, [Fin 5]); (2%Z, [Fin 5])]) [(2%Z, [Fin 5])])
  = [].
Proof. repeat split; vm_compute; reflexivity. Qed.

(* ===================================================================== *)
(** * Part III: further properties of the code                             *)
(* ===================================================================== *)

(** ** The range of the score *)

Lemma real_yields_between lo hi metrics s :
  score_between lo hi s -> score_between (lo - 2) (hi + 2) (real_yields metrics s).
Proof.
  unfold score_between, real_yields. intros [Hl Hh].
  destruct (dict_get _ _ _) as [|ry]; [split; lra|].
  repeat branch; simpl; split; lra.
Qed.

Lemma usd_strength_between lo hi metrics s :
  score_between lo hi s -> score_between (lo - 1.5) (hi + 1.5) (usd_strength metrics s).
Proof.
  unfold score_between, usd_strength. intros [Hl Hh].
  destruct (dict_get _ _ _) as [|dxy]; [split; lra|].
  repeat branch; simpl; split; lra.
Qed.

Lemma central_bank_between lo hi cb s s' :
  central_bank cb s = Ok s' ->
  score_between lo hi s -> score_between (lo - 1) (hi + 2) s'.
Proof.
  unfold score_between, central_bank. intros E [Hl Hh]. revert E.
  repeat branch; try destruct (days_old cb);
    intros E; inversion E; subst; simpl; split; lra.
Qed.

Lemma valuation_between lo hi metrics s :
  score_between lo hi s -> score_between (lo - 1) hi (valuation metrics s).
Proof.
  unfold score_between, valuation. intros [Hl Hh].
  destruct (dict_get _ _ _) as [|z]; [split; lra|].
  repeat branch; simpl; split; lra.
Qed.

Lemma real_yields_count metrics s :
  (length (sc_components s) <= length (sc_components (real_yields metrics s))
   <= S (length (sc_components s)))%nat.
Proof.
  unfold real_yields. destruct (dict_get _ _ _) as [|ry]; [lia|].
  repeat branch; simpl; rewrite length_app; simpl; lia.
Qed.

Lemma usd_strength_count metrics s :
  (length (sc_components s) <= length (sc_components (usd_strength metrics s))
   <= S (length (sc_components s)))%nat.
Proof.
  unfold usd_strength. destruct (dict_get _ _ _) as [|dxy]; [lia|].
  repeat branch; simpl; rewrite length_app; simpl; lia.
Qed.

Lemma central_bank_count cb s s' :
  central_bank cb s = Ok s' ->
  length (sc_components s') = S (length (sc_components s)).
Proof.
  unfold central_bank.
  repeat branch; try destruct (days_old cb);
    intros E; inversion E; subst; simpl; rewrite length_app; simpl; lia.
Qed.

Lemma valuation_count metrics s :
  (length (sc_components s) <= length (sc_components (valuation metrics s))
   <= S (length (sc_components s)))%nat.
Proof.
  unfold valuation. destruct (dict_get _ _ _) as [|z]; [lia|].
  repeat branch; simpl; try rewrite length_app; simpl; lia.
Qed.

Lemma run_categories_inv metrics cb s :
  run_categories metrics cb = Ok s ->
  exists s1,
    central_bank cb (usd_strength metrics (real_yields metrics start)) = Ok s1 /\
    s = valuation metrics s1.
Proof.
  unfold run_categories, bind.
  destruct (central_bank _ _) as [s1|e]; [|discriminate].
  intros E. inversion E. eauto.
Qed.

Lemma run_categories_range metrics cb s :
  run_categories metrics cb = Ok s ->
  score_between (-5.5) 5.5 s /\ (1 <= length (sc_components s) <= 4)%nat.
Proof.
  intros Hrun. destruct (run_categories_inv _ _ _ Hrun) as (s1 & Hcb & ->).
  assert (H0 : score_between 0 0 start) by (split; simpl; lra).
  pose proof (real_yields_between _ _ metrics _ H0) as H1.
  pose proof (usd_strength_between _ _ metrics _ H1) as H2.
  pose proof (central_bank_between _ _ _ _ _ Hcb H2) as H3.
  pose proof (valuation_between _ _ metrics _ H3) as [H4 H5].
  pose proof (real_yields_count metrics start) as C1.
  pose proof (usd_strength_count metrics (real_yields metrics start)) as C2.
  pose proof (central_bank_count _ _ _ Hcb) as C3.
  pose proof (valuation_count metrics s1) as C4.
  simpl in C1. split; [split; lra | lia].
Qed.

Lemma returned_score metrics cb r :
  calculate_regime_score metrics cb = Ok r ->
  exists s k,
    run_categories metrics cb = Ok s /\ r = finish s /\
    score r == sc_score s /\ sc_score s == inject_Z k / 4 /\
    components r = sc_components s.
Proof.
  intros Hr. destruct (calculate_regime_score_inv _ _ _ Hr) as (s & Hs & ->).
  destruct (run_categories_invariants _ _ _ Hs) as [_ [k Hk]].
  destruct (finish_fields s) as (Hscore & Hcs & _).
  exists s, k. repeat split; auto.
  rewrite Hscore. apply (round2_quarters _ _ Hk).
Qed.

(** X1.  Every score the scorer returns lies between -5.5 and 5.5, with at
    least one and at most four components; both bounds are reached. *)
Theorem score_range :
  (forall metrics cb r,
      calculate_regime_score metrics cb = Ok r ->
      -5.5 <= score r /\ score r <= 5.5 /\
      (1 <= length (components r) <= 4)%nat) /\
  (exists metrics cb r, calculate_regime_score metrics cb = Ok r /\ score r == 5.5) /\
  (exists metrics cb r, calculate_regime_score metrics cb = Ok r /\ score r == -5.5).
Proof.
  split; [|split].
  - intros metrics cb r Hr.
    destruct (returned_score _ _ _ Hr) as (s & k & Hs & -> & Hscore & _ & Hcs).
    destruct (run_categories_range _ _ _ Hs) as [[Hl Hh] Hn].
    rewrite Hscore, Hcs. auto.
  - exists (<["real_yield_momentum_30d" := PyNum (Fin (-0.05))]>
             (<["dxy_momentum_30d" := PyNum (Fin (-0.05))]> ∅)), example_signal.
    eexists. split; vm_compute; reflexivity.
  - exists (<["real_yield_momentum_30d" := PyNum (Fin 0.05)]>
             (<["dxy_momentum_30d" := PyNum (Fin 0.05)]>
                (<["real_gold_zscore" := PyNum (Fin 2)]> ∅))),
      (get_latest_data 0
         (FileRows [ {| row_quarter := "Q1_2025"; row_tonnes := Fin (-10);
                        row_source := "WGC"; row_validated := 0 |} ])).
    eexists. split; vm_compute; reflexivity.
Qed.

Lemma score_range_witness :
  exists r,
    calculate_regime_score example_metrics example_signal = Ok r /\
    -5.5 <= score r /\ score r <= 5.5.
Proof.
  destruct score_range as [H _].
  eexists. split; [vm_compute; reflexivity|].
  destruct (H example_metrics example_signal _ eq_refl) as (Hl & Hh & _).
  split; [exact Hl | exact Hh].
Defined.

(** ** A stale signal *)

Lemma valuation_count_after_flag metrics c s :
  length (sc_components (valuation metrics (append c s)))
  = S (length (sc_components (valuation metrics s))).
Proof.
  rewrite (valuation_appends metrics (append c s)), (valuation_appends metrics s).
  unfold append. cbn [sc_components]. rewrite !length_app. simpl. lia.
Qed.

Lemma valuation_after_flag metrics c s :
  sc_score (valuation metrics (append c s)) = sc_score (valuation metrics s).
Proof.
  unfold valuation. destruct (dict_get _ _ _) as [|z]; [reflexivity|].
  repeat branch; reflexivity.
Qed.

Lemma central_bank_stale cb s d :
  status_known cb = true -> stale_flag cb = true -> days_old cb = Some d ->
  central_bank cb s
  = Ok (append (("CB data stale (" +:+ pretty d +:+ " days)")%string, 0, "⚠️"%string) s).
Proof.
  intros Hst Hstale Hd. unfold central_bank. rewrite Hst, Hstale, Hd. reflexivity.
Qed.

Lemma central_bank_unread cb s :
  status_known cb = false ->
  central_bank cb s = Ok (append ("CB data missing", 0, "⚠️")%string s).
Proof. intros Hst. unfold central_bank. rewrite Hst. reflexivity. Qed.

(** The signal read from a file with rows. *)
Lemma get_latest_data_rows (now : Z) (rows : list cb_row) (latest : cb_row) :
  last rows = Some latest ->
  let cb := get_latest_data now (FileRows rows) in
  let d := days_between now (row_validated latest) in
  status_known cb = true /\
  stale_flag cb = (90 <? d)%Z /\
  days_old cb = Some d /\
  status cb = Some (if (90 <? d)%Z then "stale" else "current")%string /\
  quarter cb = Some (row_quarter latest) /\
  cb_net_tonnes cb = Some (row_tonnes latest) /\
  source cb = Some (row_source latest) /\
  validated_date cb = Some (row_validated latest).
Proof.
  intros Hlast. unfold get_latest_data. rewrite Hlast. cbv zeta.
  unfold status_known, stale_flag. cbn [status is_stale days_old quarter cb_net_tonnes
    source validated_date].
  destruct (90 <? days_between now (row_validated latest))%Z; repeat split; reflexivity.
Qed.

Lemma finish_same_score (s s' : scorer) :
  sc_score s = sc_score s' ->
  score (finish s) = score (finish s') /\
  assessment (finish s) = assessment (finish s') /\
  conviction (finish s) = conviction (finish s') /\
  action (finish s) = action (finish s').
Proof.
  intros H. unfold finish. rewrite H.
  destruct (interpret (sc_score s')) as [[a c] act]. auto.
Qed.

(** X2.  A stale signal counts for nothing, whatever its tonnage: for a file
    whose last row is more than 90 days old the scorer returns the score,
    the band and the texts it returns when there is no data file at all. *)
Theorem stale_signal_scores_as_missing (metrics : gmap string pyval)
    (now : Z) (rows : list cb_row) (latest : cb_row) :
  last rows = Some latest ->
  (90 < days_between now (row_validated latest))%Z ->
  exists r r',
    calculate_regime_score metrics (get_latest_data now (FileRows rows)) = Ok r /\
    calculate_regime_score metrics (get_latest_data now FileAbsent) = Ok r' /\
    score r = score r' /\
    assessment r = assessment r' /\
    conviction r = conviction r' /\
    action r = action r' /\
    length (components r) = length (components r').
Proof.
  intros Hlast Hold.
  destruct (get_latest_data_rows now rows latest Hlast) as (Hst & Hstale & Hd & _).
  assert (Hlt : (90 <? days_between now (row_validated latest))%Z = true)
    by (apply Z.ltb_lt; exact Hold).
  rewrite Hlt in Hstale.
  unfold calculate_regime_score, run_categories.
  rewrite (central_bank_stale _ _ _ Hst Hstale Hd).
  rewrite (central_bank_unread (get_latest_data now FileAbsent)) by reflexivity.
  unfold bind.
  eexists. eexists. split; [reflexivity|]. split; [reflexivity|].
  destruct (finish_same_score
              (valuation metrics
                 (append (("CB data stale (" +:+ pretty (days_between now (row_validated latest))
                           +:+ " days)")%string, 0, "⚠️"%string)
                    (usd_strength metrics (real_yields metrics start))))
              (valuation metrics
                 (append ("CB data missing", 0, "⚠️")%string
                    (usd_strength metrics (real_yields metrics start)))))
    as (H1 & H2 & H3 & H4).
  { rewrite !valuation_after_flag. reflexivity. }
  split; [exact H1|]. split; [exact H2|]. split; [exact H3|]. split; [exact H4|].
  destruct (finish_fields (valuation metrics
                 (append (("CB data stale (" +:+ pretty (days_between now (row_validated latest))
                           +:+ " days)")%string, 0, "⚠️"%string)
                    (usd_strength metrics (real_yields metrics start))))) as (_ & -> & _).
  destruct (finish_fields (valuation metrics
                 (append ("CB data missing", 0, "⚠️")%string
                    (usd_strength metrics (real_yields metrics start))))) as (_ & -> & _).
  rewrite !valuation_count_after_flag. reflexivity.
Qed.

Lemma stale_signal_scores_as_missing_witness :
  exists r r',
    calculate_regime_score example_metrics
      (get_latest_data (86400 * 200)
         (FileRows [ {| row_quarter := "Q1_2025"; row_tonnes := Fin 300;
                        row_source := "WGC"; row_validated := 86400 * 55 |} ])) = Ok r /\
    calculate_regime_score example_metrics (get_latest_data (86400 * 200) FileAbsent) = Ok r' /\
    score r = score r'.
Proof.
  destruct (stale_signal_scores_as_missing example_metrics (86400 * 200)
              [ {| row_quarter := "Q1_2025"; row_tonnes := Fin 300;
                   row_source := "WGC"; row_validated := 86400 * 55 |} ]
              {| row_quarter := "Q1_2025"; row_tonnes := Fin 300;
                 row_source := "WGC"; row_validated := 86400 * 55 |})
    as (r & r' & H1 & H2 & H3 & _).
  - reflexivity.
  - vm_compute. reflexivity.
  - exists r, r'. auto.
Defined.

(** ** The score bar *)

Lemma Qlt_bool_proper (a a' b : Q) : a == a' -> Qlt_bool a b = Qlt_bool a' b.
Proof. intros H. unfold Qlt_bool. rewrite H. reflexivity. Qed.

Lemma py_int_proper (q q' : Q) : q == q' -> py_int q = py_int q'.
Proof.
  intros H. unfold py_int.
  rewrite (Qlt_bool_proper q q' 0 H), (Qfloor_comp _ _ H), (Qceiling_comp _ _ H).
  reflexivity.
Qed.

Lemma score_bar_slots_proper (q q' : Q) :
  q == q' -> score_bar_slots q = score_bar_slots q'.
Proof.
  intros H. unfold score_bar_slots.
  rewrite (py_int_proper ((q + 5) / 10 * 20) ((q' + 5) / 10 * 20)); [reflexivity|].
  rewrite H. reflexivity.
Qed.

Lemma score_bar_all_quarters :
  forallb (fun k => bool_decide (score_bar_slots (inject_Z k / 4) = bar_of_quarters k))
          (seqZ (-22) 45) = true.
Proof. vm_compute. reflexivity. Qed.

Lemma score_bar_quarters (k : Z) :
  (-22 <= k <= 22)%Z -> score_bar_slots (inject_Z k / 4) = bar_of_quarters k.
Proof.
  intros Hk.
  pose proof score_bar_all_quarters as H.
  rewrite forallb_forall in H.
  specialize (H k). rewrite bool_decide_eq_true in H. apply H.
  apply list_elem_of_In, elem_of_seqZ. lia.
Qed.

Lemma quarters_in_range (k : Z) :
  -5.5 <= inject_Z k / 4 -> inject_Z k / 4 <= 5.5 -> (-22 <= k <= 22)%Z.
Proof.
  unfold Qle, Qdiv, Qmult, Qinv, inject_Z. simpl. lia.
Qed.

Lemma quarters_top (k : Z) : inject_Z k / 4 == 5.5 <-> k = 22%Z.
Proof. unfold Qeq, Qdiv, Qmult, Qinv, inject_Z. simpl. lia. Qed.

Lemma quarters_bottom (k : Z) : inject_Z k / 4 == -5.5 <-> k = (-22)%Z.
Proof. unfold Qeq, Qdiv, Qmult, Qinv, inject_Z. simpl. lia. Qed.

(** The bar of a score the scorer returned. *)
Lemma score_bar_of_result metrics cb r :
  calculate_regime_score metrics cb = Ok r ->
  exists k,
    (-22 <= k <= 22)%Z /\ score r == inject_Z k / 4 /\
    score_bar_slots (score r) = bar_of_quarters k.
Proof.
  intros Hr.
  destruct (returned_score _ _ _ Hr) as (s & k & Hs & -> & Hscore & Hk & _).
  destruct (run_categories_range _ _ _ Hs) as [[Hl Hh] _].
  assert (Hrange : (-22 <= k <= 22)%Z)
    by (apply quarters_in_range; rewrite <- Hk; assumption).
  exists k. split; [exact Hrange|]. split; [rewrite Hscore; exact Hk|].
  rewrite (score_bar_slots_proper _ (inject_Z k / 4)) by (rewrite Hscore; exact Hk).
  apply score_bar_quarters. exact Hrange.
Qed.

(** X3.  On the scores the scorer returns, [_create_score_bar] raises
    [IndexError] exactly at the top score 5.5, where the position computed
    is 21 in a bar of 21 slots; and 5.5 is a score the scorer returns (real
    yields and dollar falling sharply, strong central-bank buying). *)
Theorem score_bar_fails_at_top_score :
  (forall metrics cb r,
      calculate_regime_score metrics cb = Ok r ->
      (create_score_bar (score r) = Raise IndexError <-> score r == 5.5) /\
      (~ score r == 5.5 -> exists bar, create_score_bar (score r) = Ok bar)) /\
  (exists metrics cb r,
      calculate_regime_score metrics cb = Ok r /\
      create_score_bar (score r) = Raise IndexError).
Proof.
  split.
  - intros metrics cb r Hr.
    destruct (score_bar_of_result _ _ _ Hr) as (k & Hrange & Hk & Hbar).
    unfold create_score_bar. rewrite Hbar. unfold bar_of_quarters.
    assert (Htop : score r == 5.5 <-> k = 22%Z).
    { rewrite Hk. apply quarters_top. }
    destruct (Z.eqb_spec k 22) as [E|N].
    + simpl. split; [tauto|]. intros Hne. exfalso. apply Hne, Htop, E.
    + destruct (Z.eqb_spec k (-22)); simpl.
      * split; [split; [discriminate | intros H; apply Htop in H; lia] | eauto].
      * split; [split; [discriminate | intros H; apply Htop in H; lia] | eauto].
  - exists (<["real_yield_momentum_30d" := PyNum (Fin (-0.05))]>
             (<["dxy_momentum_30d" := PyNum (Fin (-0.05))]> ∅)), example_signal.
    eexists. split; vm_compute; reflexivity.
Qed.

Lemma score_bar_fails_at_top_score_witness :
  exists r bar,
    calculate_regime_score example_metrics example_signal = Ok r /\
    create_score_bar (score r) = Ok bar.
Proof.
  destruct score_bar_fails_at_top_score as [H _].
  eexists. 
  destruct (H example_metrics example_signal _ eq_refl) as [_ Hok].
  destruct Hok as [bar Hbar]; [vm_compute; discriminate|].
  exists bar. split; [reflexivity | exact Hbar].
Defined.

(** X4.  On every other score the scorer returns the bar has its 21 slots,
    with the block at slot [int(2 * score + 10)], except at the bottom score
    -5.5: there the position computed is -1, which Python reads from the
    end, so the block of the most bearish score sits in the last slot, the
    bullish end of the bar.  The score -5.5 is one the scorer returns. *)
Theorem score_bar_block_position :
  (forall metrics cb r,
      calculate_regime_score metrics cb = Ok r ->
      ~ score r == 5.5 ->
      exists p,
        score_bar_slots (score r) = Ok (bar_with_block p) /\
        length (bar_with_block p) = 21%nat /\
        bar_with_block p !! p = Some "█"%string /\
        (score r == -5.5 -> p = 20%nat) /\
        (~ score r == -5.5 -> Z.of_nat p = py_int (2 * score r + 10))) /\
  (exists metrics cb r,
      calculate_regime_score metrics cb = Ok r /\ score r == -5.5 /\
      score_bar_slots (score r) = Ok (bar_with_block 20)).
Proof.
  split.
  - intros metrics cb r Hr Hnot.
    destruct (score_bar_of_result _ _ _ Hr) as (k & Hrange & Hk & Hbar).
    rewrite Hbar. unfold bar_of_quarters.
    assert (Htop : score r == 5.5 <-> k = 22%Z).
    { rewrite Hk. apply quarters_top. }
    assert (Hbot : score r == -5.5 <-> k = (-22)%Z).
    { rewrite Hk. apply quarters_bottom. }
    destruct (Z.eqb_spec k 22) as [E|N]; [exfalso; apply Hnot, Htop, E|].
    destruct (Z.eqb_spec k (-22)) as [E'|N'].
    + exists 20%nat. repeat split; try reflexivity.
      intros H. exfalso. apply H, Hbot, E'.
    + assert (Hpos : py_int (2 * score r + 10) = py_int (2 * (inject_Z k / 4) + 10)).
      { apply py_int_proper. rewrite Hk. reflexivity. }
      assert (Hp : (0 <= py_int (2 * (inject_Z k / 4) + 10) <= 20)%Z).
      { assert (Hall : forallb (fun j =>
                  (0 <=? py_int (2 * (inject_Z j / 4) + 10))%Z
                  && (py_int (2 * (inject_Z j / 4) + 10) <=? 20)%Z) (seqZ (-21) 43) = true)
          by (vm_compute; reflexivity).
        rewrite forallb_forall in Hall. specialize (Hall k).
        rewrite andb_true_iff, Z.leb_le, Z.leb_le in Hall. apply Hall.
        apply list_elem_of_In, elem_of_seqZ. lia. }
      exists (Z.to_nat (py_int (2 * (inject_Z k / 4) + 10))).
      split; [reflexivity|]. split.
      { unfold bar_with_block. rewrite !length_insert. reflexivity. }
      split.
      { unfold bar_with_block. apply list_lookup_insert_eq.
        rewrite length_insert. simpl. lia. }
      split.
      { intros H. apply Hbot in H. contradiction. }
      intros _. rewrite Hpos. lia.
  - exists (<["real_yield_momentum_30d" := PyNum (Fin 0.05)]>
             (<["dxy_momentum_30d" := PyNum (Fin 0.05)]>
                (<["real_gold_zscore" := PyNum (Fin 2)]> ∅))),
      (get_latest_data 0
         (FileRows [ {| row_quarter := "Q1_2025"; row_tonnes := Fin (-10);
                        row_source := "WGC"; row_validated := 0 |} ])).
    eexists. split; [vm_compute; reflexivity|]. split; vm_compute; reflexivity.
Qed.

Lemma score_bar_block_position_witness :
  exists r p,
    calculate_regime_score example_metrics example_signal = Ok r /\
    score_bar_slots (score r) = Ok (bar_with_block p) /\
    Z.of_nat p = py_int (2 * score r + 10).
Proof.
  destruct score_bar_block_position as [H _].
  eexists.
  destruct (H example_metrics example_signal _ eq_refl) as (p & Hp & _ & _ & _ & Hpos);
    [vm_compute; discriminate|].
  exists p. split; [reflexivity|]. split; [exact Hp|].
  apply Hpos. vm_compute. discriminate.
Defined.

(** ** The report's reading of the tonnage *)

Lemma flt_not_fgt (z : pyfloat) (a : Q) : flt z (Fin a) = true -> fgt z (Fin a) = false.
Proof. apply flt_below_not_fgt. apply Qle_refl. Qed.

(** X5.  For a signal that is read and not stale, the report and the scorer
    put the tonnage in the same class above 0 and below 0; they part at
    exactly 0 tonnes (and at NaN): the scorer appends "Weak CB buying" with
    weight 0, the report says "Net selling". *)
Theorem report_and_scorer_on_tonnage (cb : cb_data) (s : scorer) :
  status_known cb = true ->
  stale_flag cb = false ->
  (fgt (cb_tonnes_of cb) (Fin 250) = true ->
   cb_interp cb = "Strong structural buying"%string /\
   central_bank cb s
   = Ok (append ("Strong CB buying >250t", 2, "✅")%string (add_score 2 s))) /\
  (fgt (cb_tonnes_of cb) (Fin 250) = false -> fgt (cb_tonnes_of cb) (Fin 100) = true ->
   cb_interp cb = "Moderate buying"%string /\
   central_bank cb s
   = Ok (append ("Moderate CB buying", 1, "✅")%string (add_score 1 s))) /\
  (fgt (cb_tonnes_of cb) (Fin 100) = false -> fgt (cb_tonnes_of cb) (Fin 0) = true ->
   cb_interp cb = "Weak buying"%string /\
   central_bank cb s = Ok (append ("Weak CB buying", 0, "➖")%string s)) /\
  (flt (cb_tonnes_of cb) (Fin 0) = true ->
   cb_interp cb = "Net selling"%string /\
   central_bank cb s
   = Ok (append ("CB selling", -1, "❌")%string (add_score (-1) s))) /\
  (fgt (cb_tonnes_of cb) (Fin 0) = false -> flt (cb_tonnes_of cb) (Fin 0) = false ->
   cb_interp cb = "Net selling"%string /\
   central_bank cb s = Ok (append ("Weak CB buying", 0, "➖")%string s)).
Proof.
  intros Hst Hstale. unfold cb_interp, central_bank. rewrite Hst, Hstale.
  split; [|split; [|split; [|split]]].
  - intros ->. auto.
  - intros -> ->. auto.
  - intros H100 H0.
    assert (H250 : fgt (cb_tonnes_of cb) (Fin 250) = false).
    { destruct (fgt (cb_tonnes_of cb) (Fin 250)) eqn:E; [|reflexivity].
      rewrite (fgt_above _ 100 250) in H100; [discriminate|discriminate|assumption]. }
    assert (Hneg : flt (cb_tonnes_of cb) (Fin 0) = false).
    { destruct (flt (cb_tonnes_of cb) (Fin 0)) eqn:E; [|reflexivity].
      rewrite (flt_not_fgt _ 0 E) in H0. discriminate. }
    rewrite H250, H100, H0, Hneg. auto.
  - intros Hneg.
    rewrite (flt_below_not_fgt _ 0 250), (flt_below_not_fgt _ 0 100),
      (flt_not_fgt _ 0), Hneg; try assumption; try discriminate. auto.
  - intros H0 Hneg.
    assert (H100 : fgt (cb_tonnes_of cb) (Fin 100) = false).
    { destruct (fgt (cb_tonnes_of cb) (Fin 100)) eqn:E; [|reflexivity].
      rewrite (fgt_above _ 0 100) in H0; [discriminate|discriminate|assumption]. }
    assert (H250 : fgt (cb_tonnes_of cb) (Fin 250) = false).
    { destruct (fgt (cb_tonnes_of cb) (Fin 250)) eqn:E; [|reflexivity].
      rewrite (fgt_above _ 0 250) in H0; [discriminate|discriminate|assumption]. }
    rewrite H250, H100, H0, Hneg. auto.
Qed.

Lemma report_and_scorer_on_tonnage_witness :
  cb_interp
    (get_latest_data 0
       (FileRows [ {| row_quarter := "Q1_2025"; row_tonnes := Fin 0;
                      row_source := "WGC"; row_validated := 0 |} ]))
  = "Net selling"%string /\
  central_bank
    (get_latest_data 0
       (FileRows [ {| row_quarter := "Q1_2025"; row_tonnes := Fin 0;
                      row_source := "WGC"; row_validated := 0 |} ])) start
  = Ok (append ("Weak CB buying", 0, "➖")%string start).
Proof.
  destruct (report_and_scorer_on_tonnage
              (get_latest_data 0
                 (FileRows [ {| row_quarter := "Q1_2025"; row_tonnes := Fin 0;
                                row_source := "WGC"; row_validated := 0 |} ])) start)
    as (_ & _ & _ & _ & H); [reflexivity | reflexivity |].
  apply H; reflexivity.
Defined.

(** ** The age of the signal *)

Lemma whole_days (x n : Z) : (n <= x / 86400 <-> n * 86400 <= x)%Z.
Proof.
  pose proof (Z.div_mod x 86400 ltac:(lia)) as Hdm.
  pose proof (Z.mod_pos_bound x 86400 ltac:(lia)) as Hm.
  lia.
Qed.

(** X6.  The signal of a file with rows is stale exactly when at least 91
    whole days lie between the validated date of the last row and the time
    of reading: a row validated 90 days and 23 hours ago is still current.
    Once stale, it is stale at every later reading of the same file.  A
    validated date in the future gives a negative age and a current
    signal. *)
Theorem stale_after_91_days (now : Z) (rows : list cb_row) (latest : cb_row) :
  last rows = Some latest ->
  (status (get_latest_data now (FileRows rows)) = Some "stale"%string
   <-> (91 * 86400 <= now - row_validated latest)%Z) /\
  (status (get_latest_data now (FileRows rows)) = Some "current"%string
   <-> (now - row_validated latest < 91 * 86400)%Z) /\
  (is_stale (get_latest_data now (FileRows rows)) = Some true
   <-> (91 * 86400 <= now - row_validated latest)%Z) /\
  (forall now',
      (now <= now')%Z ->
      status (get_latest_data now (FileRows rows)) = Some "stale"%string ->
      status (get_latest_data now' (FileRows rows)) = Some "stale"%string) /\
  ((now < row_validated latest)%Z ->
   exists d,
     days_old (get_latest_data now (FileRows rows)) = Some d /\ (d < 0)%Z /\
     status (get_latest_data now (FileRows rows)) = Some "current"%string).
Proof.
  intros Hlast.
  assert (Hthr : forall t, (90 <? days_between t (row_validated latest))%Z = true
                           <-> (91 * 86400 <= t - row_validated latest)%Z).
  { intros t. rewrite Z.ltb_lt. unfold days_between.
    pose proof (whole_days (t - row_validated latest) 91). lia. }
  assert (Hst : forall t,
             status (get_latest_data t (FileRows rows)) = Some "stale"%string
             <-> (91 * 86400 <= t - row_validated latest)%Z).
  { intros t. destruct (get_latest_data_rows t rows latest Hlast) as (_ & _ & _ & -> & _).
    rewrite <- Hthr.
    destruct (90 <? days_between t (row_validated latest))%Z;
      split; intros H; try reflexivity; try discriminate. }
  split; [apply Hst|]. split; [|split; [|split]].
  - destruct (get_latest_data_rows now rows latest Hlast) as (_ & _ & _ & -> & _).
    specialize (Hthr now).
    destruct (90 <? days_between now (row_validated latest))%Z.
    + split; [discriminate|]. intros H. assert (91 * 86400 <= now - row_validated latest)%Z
        by (apply Hthr; reflexivity). lia.
    + split; [|reflexivity]. intros _.
      destruct (Z.le_gt_cases (91 * 86400) (now - row_validated latest)) as [H|H]; [|lia].
      apply Hthr in H. discriminate.
  - unfold get_latest_data. rewrite Hlast. cbn [is_stale]. rewrite <- Hthr.
    destruct (90 <? days_between now (row_validated latest))%Z;
      split; intros H; try reflexivity; try discriminate.
  - intros now' Hle H. apply Hst. apply Hst in H. lia.
  - intros Hfuture.
    destruct (get_latest_data_rows now rows latest Hlast) as (_ & _ & -> & -> & _).
    exists (days_between now (row_validated latest)).
    assert (Hneg : (days_between now (row_validated latest) < 0)%Z).
    { unfold days_between.
      pose proof (whole_days (now - row_validated latest) 0). lia. }
    split; [reflexivity|]. split; [exact Hneg|].
    destruct (Z.ltb_spec 90 (days_between now (row_validated latest))); [lia|reflexivity].
Qed.

Lemma stale_after_91_days_witness :
  status (get_latest_data (86400 * 100)
            (FileRows [ {| row_quarter := "Q1_2025"; row_tonnes := Fin 300;
                           row_source := "WGC"; row_validated := 86400 * 55 |} ]))
  = Some "current"%string.
Proof.
  destruct (stale_after_91_days (86400 * 100)
              [ {| row_quarter := "Q1_2025"; row_tonnes := Fin 300;
                   row_source := "WGC"; row_validated := 86400 * 55 |} ]
              {| row_quarter := "Q1_2025"; row_tonnes := Fin 300;
                 row_source := "WGC"; row_validated := 86400 * 55 |} eq_refl)
    as (_ & H & _).
  apply H. vm_compute. reflexivity.
Defined.

(** ** The interactive update *)

Lemma filter_other_quarters_idem (q : string) (df : list cb_row) :
  filter (fun r => row_quarter r <> q) (filter (fun r => row_quarter r <> q) df)
  = filter (fun r => row_quarter r <> q) df.
Proof.
  induction df as [|r df IH]; [reflexivity|].
  rewrite (filter_cons _ r df). destruct (decide (row_quarter r <> q)) as [Hne|He].
  - rewrite filter_cons. destruct (decide (row_quarter r <> q)); [|contradiction].
    rewrite IH. reflexivity.
  - exact IH.
Qed.

Lemma filter_quarter_gone (q : string) (df : list cb_row) :
  filter (fun r => row_quarter r = q) (filter (fun r => row_quarter r <> q) df) = [].
Proof.
  induction df as [|r df IH]; [reflexivity|].
  rewrite (filter_cons _ r df). destruct (decide (row_quarter r <> q)) as [Hne|He].
  - rewrite filter_cons. destruct (decide (row_quarter r = q)); [contradiction|]. exact IH.
  - exact IH.
Qed.

Lemma filter_quarter_absent (q : string) (df : list cb_row) :
  q ∉ row_quarter <$> df ->
  filter (fun r => row_quarter r <> q) df = df.
Proof.
  induction df as [|r df IH]; [reflexivity|].
  rewrite fmap_cons, not_elem_of_cons. intros [Hne Hrest].
  rewrite filter_cons. destruct (decide (row_quarter r <> q)) as [_|He].
  - rewrite IH by assumption. reflexivity.
  - exfalso. apply He. congruence.
Qed.

(** When the update succeeds. *)
Lemma interactive_update_done quarter_format file a now file' :
  interactive_update quarter_format file a now = (true, file') ->
  exists df tonnes,
    file = FileRows df /\
    quarter_format (ans_quarter a) = true /\
    ans_tonnes a = Some tonnes /\
    ans_confirm a = "y"%string /\
    (ans_quarter a ∈ row_quarter <$> df -> ans_overwrite a = "y"%string) /\
    file' = FileRows (filter (fun r => row_quarter r <> ans_quarter a) df
                        ++ [new_row a tonnes now]).
Proof.
  unfold interactive_update.
  destruct file as [|e|df]; [discriminate| |].
  - destruct (quarter_format (ans_quarter a)); simpl; [|discriminate].
    destruct (ans_tonnes a); [|discriminate].
    destruct (bool_decide _); simpl; discriminate.
  - destruct (quarter_format (ans_quarter a)) eqn:Hq; simpl; [|discriminate].
    destruct (ans_tonnes a) as [tonnes|] eqn:Ht; [|discriminate].
    destruct (bool_decide (ans_confirm a = "y"%string)) eqn:Hc; simpl; [|discriminate].
    apply bool_decide_eq_true in Hc.
    destruct (bool_decide (ans_quarter a ∈ row_quarter <$> df)) eqn:Hin.
    + destruct (bool_decide (ans_overwrite a = "y"%string)) eqn:Ho; [|discriminate].
      apply bool_decide_eq_true in Ho.
      intros E. inversion E. exists df, tonnes. repeat split; auto.
    + apply bool_decide_eq_false in Hin.
      intros E. inversion E. exists df, tonnes.
      rewrite (filter_quarter_absent _ _ Hin).
      repeat split; auto. intros H. contradiction.
Qed.

(** X8.  A successful update leaves every row of the other quarters as it
    was and in its order, and leaves exactly one row of the quarter
    entered, the new one, at the end; with a quarter new to the file it
    only appends.  An update that returns [False] leaves the file as it
    was. *)
Theorem update_replaces_one_quarter quarter_format (file : data_file) (a : answers)
    (now : Z) (file' : data_file) :
  (interactive_update quarter_format file a now = (false, file') -> file' = file) /\
  (interactive_update quarter_format file a now = (true, file') ->
   exists df df' tonnes,
     file = FileRows df /\ file' = FileRows df' /\ ans_tonnes a = Some tonnes /\
     last df' = Some (new_row a tonnes now) /\
     filter (fun r => row_quarter r <> ans_quarter a) df'
     = filter (fun r => row_quarter r <> ans_quarter a) df /\
     filter (fun r => row_quarter r = ans_quarter a) df' = [new_row a tonnes now] /\
     (ans_quarter a ∉ row_quarter <$> df -> df' = df ++ [new_row a tonnes now])).
Proof.
  split.
  - unfold interactive_update.
    destruct file as [|e|df]; [intros E; inversion E; reflexivity| |].
    + destruct (negb _); [intros E; inversion E; reflexivity|].
      destruct (ans_tonnes a); [|intros E; inversion E; reflexivity].
      destruct (negb _); intros E; inversion E; reflexivity.
    + destruct (negb _); [intros E; inversion E; reflexivity|].
      destruct (ans_tonnes a); [|intros E; inversion E; reflexivity].
      destruct (negb _); [intros E; inversion E; reflexivity|].
      destruct (bool_decide (ans_quarter a ∈ _)); [|discriminate].
      destruct (bool_decide (ans_overwrite a = _)); [discriminate|].
      intros E; inversion E; reflexivity.
  - intros Hdone.
    destruct (interactive_update_done _ _ _ _ _ Hdone)
      as (df & tonnes & -> & _ & Ht & _ & _ & ->).
    exists df, (filter (fun r => row_quarter r <> ans_quarter a) df ++ [new_row a tonnes now]),
      tonnes.
    split; [reflexivity|]. split; [reflexivity|]. split; [exact Ht|].
    split; [apply last_snoc|]. split; [|split].
    + rewrite filter_app, filter_other_quarters_idem.
      rewrite (filter_cons _ (new_row a tonnes now) []).
      destruct (decide (row_quarter (new_row a tonnes now) <> ans_quarter a)) as [Hne|_].
      * exfalso. apply Hne. reflexivity.
      * rewrite filter_nil, app_nil_r. reflexivity.
    + rewrite filter_app, filter_quarter_gone.
      rewrite (filter_cons _ (new_row a tonnes now) []).
      destruct (decide (row_quarter (new_row a tonnes now) = ans_quarter a)) as [_|Hne].
      * reflexivity.
      * exfalso. apply Hne. reflexivity.
    + intros Hnew. rewrite (filter_quarter_absent _ _ Hnew). reflexivity.
Qed.

Lemma update_replaces_one_quarter_witness :
  let a := {| ans_quarter := "Q3_2024"; ans_tonnes := Some (Fin 340); ans_source := "";
              ans_confirm := "y"; ans_overwrite := "y" |}%string in
  let file' := snd (interactive_update (fun _ => true) (initialize_csv true) a
                      (date_stamp 2025 3 1)) in
  exists df' tonnes,
    file' = FileRows df' /\
    filter (fun r => row_quarter r = ans_quarter a) df' = [new_row a tonnes (date_stamp 2025 3 1)].
Proof.
  intros a file'.
  destruct (update_replaces_one_quarter (fun _ => true) (initialize_csv true) a
              (date_stamp 2025 3 1) file') as [_ H].
  destruct H as (df & df' & tonnes & _ & Hf & _ & _ & _ & Hone & _);
    [vm_compute; reflexivity|].
  exists df', tonnes. split; [exact Hf | exact Hone].
Defined.

(** ** The file of [initialize_csv] *)

(** X9.  Read back, the file initialised without sample data has status
    'empty', which the scorer takes as missing data.  The file initialised
    with the sample data gives Q4_2024 with 290 tonnes, validated on
    2025-02-20: the scorer counts it +2 as strong buying at any reading
    before 2025-05-22, and flags it stale, with no weight, from that date
    on. *)
Theorem initialised_file_read_back (now : Z) (s : scorer) :
  status (get_latest_data now (initialize_csv false)) = Some "empty"%string /\
  central_bank (get_latest_data now (initialize_csv false)) s
  = Ok (append ("CB data missing", 0, "⚠️")%string s) /\
  quarter (get_latest_data now (initialize_csv true)) = Some "Q4_2024"%string /\
  cb_net_tonnes (get_latest_data now (initialize_csv true)) = Some (Fin 290.0) /\
  ((now < date_stamp 2025 5 22)%Z ->
   status (get_latest_data now (initialize_csv true)) = Some "current"%string /\
   central_bank (get_latest_data now (initialize_csv true)) s
   = Ok (append ("Strong CB buying >250t", 2, "✅")%string (add_score 2 s))) /\
  ((date_stamp 2025 5 22 <= now)%Z ->
   status (get_latest_data now (initialize_csv true)) = Some "stale"%string /\
   central_bank (get_latest_data now (initialize_csv true)) s
   = Ok (append (("CB data stale ("
                  +:+ pretty (days_between now (date_stamp 2025 2 20))
                  +:+ " days)")%string, 0, "⚠️"%string) s)).
Proof.
  split; [reflexivity|]. split; [reflexivity|].
  pose (latest := {| row_quarter := "Q4_2024"; row_tonnes := Fin 290.0;
                     row_source := "WGC"; row_validated := date_stamp 2025 2 20 |}).
  assert (Hlast : last [ {| row_quarter := "Q3_2024"; row_tonnes := Fin 333.0;
                            row_source := "WGC"; row_validated := date_stamp 2024 11 15 |};
                         latest ] = Some latest) by reflexivity.
  destruct (get_latest_data_rows now _ latest Hlast)
    as (Hknown & Hflag & Hd & Hst & Hq & Htn & _).
  change (get_latest_data now (FileRows _)) with (get_latest_data now (initialize_csv true))
    in Hknown, Hflag, Hd, Hst, Hq, Htn.
  split; [exact Hq|]. split; [exact Htn|].
  assert (Hthr : (90 <? days_between now (row_validated latest))%Z = true
                 <-> (date_stamp 2025 5 22 <= now)%Z).
  { rewrite Z.ltb_lt. unfold days_between.
    pose proof (whole_days (now - row_validated latest) 91) as Hw.
    change (row_validated latest) with (20139 * 86400)%Z in *.
    change (date_stamp 2025 5 22) with (20230 * 86400)%Z. lia. }
  split.
  - intros Hbefore.
    assert (Hf : (90 <? days_between now (row_validated latest))%Z = false).
    { apply not_true_is_false. intros E. apply Hthr in E. lia. }
    rewrite Hf in Hflag, Hst. split; [exact Hst|].
    unfold central_bank. rewrite Hknown, Hflag.
    unfold cb_tonnes_of. rewrite Htn. reflexivity.
  - intros Hafter. apply Hthr in Hafter.
    rewrite Hafter in Hflag, Hst. split; [exact Hst|].
    apply central_bank_stale; assumption.
Qed.

Lemma initialised_file_read_back_witness :
  status (get_latest_data (date_stamp 2025 3 1) (initialize_csv true))
  = Some "current"%string.
Proof.
  destruct (initialised_file_read_back (date_stamp 2025 3 1) start)
    as (_ & _ & _ & _ & H & _).
  destruct H as [H _]; [vm_compute; reflexivity | exact H].
Defined.

(** ** New reports *)

Lemma check_for_new_report_found quarter_pattern p st now q st' notice :
  check_for_new_report quarter_pattern p st now = (Some q, st', notice) ->
  exists links i report,
    p = PageLinks links /\
    found_quarters quarter_pattern links !! i = Some (q, report) /\
    (q ∉ checked_quarters st) /\
    st' = {| checked_quarters := checked_quarters st ++ [q]; last_check := Some now |} /\
    notice = Some (q, pdf_url_of report).
Proof.
  unfold check_for_new_report. destruct p as [|links]; [discriminate|].
  destruct (list_find _ _) as [[i [q' report]]|] eqn:Hfind; [|discriminate].
  intros E. inversion E; subst.
  apply list_find_Some in Hfind as (Hi & Hnew & _).
  exists links, i, report. auto.
Qed.

Lemma check_for_new_report_keeps quarter_pattern p st now q :
  q ∈ checked_quarters st ->
  (check_for_new_report quarter_pattern p st now).1.1 <> Some q /\
  q ∈ checked_quarters (check_for_new_report quarter_pattern p st now).1.2.
Proof.
  intros Hin. unfold check_for_new_report. destruct p as [|links]; [split; [discriminate|exact Hin]|].
  destruct (list_find _ _) as [[i [q' report]]|] eqn:Hfind; [|split; [discriminate|exact Hin]].
  apply list_find_Some in Hfind as (_ & Hnew & _). simpl in *. split.
  - intros E. inversion E; subst. contradiction.
  - apply elem_of_app. left. exact Hin.
Qed.

Lemma run_checks_never quarter_pattern visits st q :
  q ∈ checked_quarters st ->
  Some q ∉ (run_checks quarter_pattern visits st).1.
Proof.
  revert st. induction visits as [|[p now] rest IH]; intros st Hin.
  - simpl. apply not_elem_of_nil.
  - simpl.
    destruct (check_for_new_report_keeps quarter_pattern p st now q Hin) as [Hne Hkeep].
    destruct (check_for_new_report quarter_pattern p st now) as [[found st1] notice].
    simpl in *. specialize (IH st1 Hkeep).
    destruct (run_checks quarter_pattern rest st1) as [others st2]. simpl in *.
    apply not_elem_of_cons. split; [congruence | exact IH].
Qed.

(** X10.  A quarter [check_for_new_report] returns was not among the
    checked quarters, is named by one of the first five links of the page
    (a two-digit year read as 20xx), and is added at the end of the checked
    quarters, with the time of the check.  When nothing is returned the
    state is left as it was and every quarter found on the page had been
    checked. *)
Theorem new_report_is_recorded quarter_pattern (p : page) (st : monitor_state) (now : Z) :
  (forall q st' notice,
      check_for_new_report quarter_pattern p st now = (Some q, st', notice) ->
      (q ∉ checked_quarters st) /\
      checked_quarters st' = checked_quarters st ++ [q] /\
      last_check st' = Some now /\
      exists links report quarter_num year,
        p = PageLinks links /\ report ∈ take 5 links /\
        quarter_pattern (link_text report) = Some (quarter_num, year) /\
        q = ("Q" +:+ quarter_num +:+ "_"
             +:+ (if (String.length year =? 2)%nat then "20" +:+ year else year))%string /\
        notice = Some (q, pdf_url_of report)) /\
  (forall st' notice,
      check_for_new_report quarter_pattern p st now = (None, st', notice) ->
      st' = st /\ notice = None /\
      forall links found,
        p = PageLinks links -> found ∈ found_quarters quarter_pattern links ->
        found.1 ∈ checked_quarters st).
Proof.
  split.
  - intros q st' notice Hcheck.
    destruct (check_for_new_report_found _ _ _ _ _ _ _ Hcheck)
      as (links & i & report & -> & Hi & Hnew & -> & ->).
    split; [exact Hnew|]. split; [reflexivity|]. split; [reflexivity|].
    assert (Hin : (q, report) ∈ found_quarters quarter_pattern links)
      by (apply list_elem_of_lookup; eauto).
    unfold found_quarters in Hin. apply list_elem_of_omap in Hin as (report' & Hr & Hq).
    destruct (quarter_pattern (link_text report')) as [[quarter_num year]|] eqn:Hpat;
      [|discriminate].
    inversion Hq; subst.
    exists links, report, quarter_num, year. repeat split; auto.
  - intros st' notice. unfold check_for_new_report.
    destruct p as [|links].
    + intros E. inversion E. repeat split; auto. intros links found Hp. discriminate.
    + destruct (list_find _ _) as [[i [q' report]]|] eqn:Hfind; [discriminate|].
      intros E. inversion E; subst. repeat split; auto.
      intros links' found Hp Hin. inversion Hp; subst links'.
      apply list_find_None in Hfind. rewrite Forall_forall in Hfind.
      specialize (Hfind found Hin).
      destruct (decide (found.1 ∈ checked_quarters st')) as [Hyes|Hno]; [exact Hyes|].
      exfalso. apply Hfind. exact Hno.
Qed.

Lemma new_report_is_recorded_witness :
  let page := PageLinks [ {| link_text := "Gold Demand Trends Q3 25";
                             link_href := "/goldhub/research/gold-demand-trends/q3" |} ]%string in
  let pattern := fun _ : string => Some ("3", "25")%string in
  let st := {| checked_quarters := ["Q2_2025"%string]; last_check := None |} in
  checked_quarters (check_for_new_report pattern page st 0).1.2
  = ["Q2_2025"; "Q3_2025"]%string.
Proof.
  intros page pattern st.
  destruct (new_report_is_recorded pattern page st 0) as [H _].
  destruct (H "Q3_2025"%string (check_for_new_report pattern page st 0).1.2
              (check_for_new_report pattern page st 0).2) as (_ & Hc & _).
  - vm_compute. reflexivity.
  - exact Hc.
Defined.

(** X11.  A quarter is reported once: after a check returned it, no later
    check returns it again, whatever pages the later checks read. *)
Theorem reported_once quarter_pattern (p : page) (st : monitor_state) (now : Z)
    (q : string) (st' : monitor_state) (notice : option (string * string))
    (visits : list (page * Z)) :
  check_for_new_report quarter_pattern p st now = (Some q, st', notice) ->
  Some q ∉ (run_checks quarter_pattern visits st').1.
Proof.
  intros Hcheck.
  destruct (check_for_new_report_found _ _ _ _ _ _ _ Hcheck)
    as (links & i & report & _ & _ & _ & -> & _).
  apply run_checks_never. simpl. apply elem_of_app. right. apply list_elem_of_singleton.
  reflexivity.
Qed.

Lemma reported_once_witness :
  let page := PageLinks [ {| link_text := "Gold Demand Trends Q3 25";
                             link_href := "/goldhub/research/gold-demand-trends/q3" |} ]%string in
  let pattern := fun _ : string => Some ("3", "25")%string in
  let st := {| checked_quarters := []; last_check := None |} in
  Some "Q3_2025"%string
  ∉ (run_checks pattern [(page, 1%Z); (page, 2%Z)]
       (check_for_new_report pattern page st 0).1.2).1.
Proof.
  intros page pattern st.
  apply (reported_once pattern page st 0 "Q3_2025"%string
           (check_for_new_report pattern page st 0).1.2
           (check_for_new_report pattern page st 0).2).
  vm_compute. reflexivity.
Defined.

(** ** The merge of history and fresh data *)

Lemma same_float_sym (a b : pyfloat) : same_float a b = same_float b a.
Proof.
  destruct a, b; simpl; try reflexivity.
  apply eq_true_iff_eq. rewrite !Qeq_bool_iff. split; intros H; symmetry; exact H.
Qed.

Lemma same_float_trans (a b c : pyfloat) :
  same_float a b = true -> same_float b c = true -> same_float a c = true.
Proof.
  destruct a, b, c; simpl; try discriminate; try reflexivity.
  rewrite !Qeq_bool_iff. intros H1 H2. rewrite H1. exact H2.
Qed.

Lemma same_row_sym (r1 r2 : row) : same_row r1 r2 = same_row r2 r1.
Proof.
  revert r2. induction r1 as [|x r1 IH]; intros [|y r2]; simpl; try reflexivity.
  rewrite same_float_sym, IH. reflexivity.
Qed.

Lemma same_row_trans (r1 r2 r3 : row) :
  same_row r1 r2 = true -> same_row r2 r3 = true -> same_row r1 r3 = true.
Proof.
  revert r2 r3. induction r1 as [|x r1 IH]; intros [|y r2] [|z r3]; simpl;
    try discriminate; try reflexivity.
  rewrite !andb_true_iff. intros [H1 H2] [H3 H4]. split.
  - eapply same_float_trans; eassumption.
  - eapply IH; eassumption.
Qed.

(** Rows with the same values match the same rows. *)
Lemma same_row_class (r1 r2 r3 : row) :
  same_row r1 r2 = true -> same_row r1 r3 = same_row r2 r3.
Proof.
  intros H. apply eq_true_iff_eq. split; intros H'.
  - apply same_row_trans with r1; [rewrite same_row_sym|]; assumption.
  - apply same_row_trans with r2; assumption.
Qed.

Lemma existsb_same_row_class (r1 r2 : row) (seen : list row) :
  same_row r1 r2 = true ->
  existsb (same_row r1) seen = existsb (same_row r2) seen.
Proof.
  intros H. induction seen as [|s seen IH]; simpl; [reflexivity|].
  rewrite IH, (same_row_class r1 r2 s H). reflexivity.
Qed.

(** How many rows with the values [r] [drop_duplicates_from] keeps: none
    when the values were seen, otherwise one when the frame holds them. *)
Lemma rows_like_drop_duplicates_from (seen : list row) (df : frame) (r : row) :
  length (rows_like r (drop_duplicates_from seen df))
  = if existsb (same_row r) seen then 0%nat
    else if existsb (fun y => same_row r y.2) df then 1%nat else 0%nat.
Proof.
  revert seen. induction df as [|[d a] df IH]; intros seen.
  - simpl. destruct (existsb (same_row r) seen); reflexivity.
  - cbn [drop_duplicates_from existsb snd].
    destruct (existsb (same_row a) seen) eqn:Ha.
    + rewrite IH. destruct (existsb (same_row r) seen) eqn:Hr; [reflexivity|].
      destruct (same_row r a) eqn:Hra; [|reflexivity].
      rewrite (existsb_same_row_class r a seen Hra), Ha in Hr. discriminate.
    + unfold rows_like. rewrite filter_cons. cbn [snd].
      destruct (decide (same_row r a = true)) as [Hra|Hra].
      * cbn [length]. fold (rows_like r (drop_duplicates_from (a :: seen) df)).
        rewrite IH. cbn [existsb]. rewrite Hra. cbn [orb].
        rewrite (existsb_same_row_class r a seen Hra), Ha. reflexivity.
      * apply not_true_is_false in Hra.
        fold (rows_like r (drop_duplicates_from (a :: seen) df)).
        rewrite IH. cbn [existsb]. rewrite Hra. reflexivity.
Qed.

Lemma drop_duplicates_from_sublist (seen : list row) (df : frame) :
  drop_duplicates_from seen df `sublist_of` df.
Proof.
  revert seen. induction df as [|[d a] df IH]; intros seen; simpl.
  - constructor.
  - destruct (existsb (same_row a) seen).
    + apply sublist_cons. apply IH.
    + apply sublist_skip. apply IH.
Qed.

Lemma existsb_rows_elem (x : Z * row) (df : frame) :
  x ∈ df -> existsb (fun y => same_row x.2 y.2) df = true.
Proof.
  induction df as [|y df IH]; [intros H; inversion H|].
  rewrite elem_of_cons. intros [->|Hin]; simpl.
  - rewrite same_row_refl. reflexivity.
  - rewrite (IH Hin). apply orb_true_r.
Qed.

Lemma sort_index_Permutation (df : frame) : sort_index df ≡ₚ df.
Proof. unfold sort_index. apply merge_sort_Permutation. Qed.

Lemma rows_like_Permutation (r : row) (df df' : frame) :
  df ≡ₚ df' -> length (rows_like r df) = length (rows_like r df').
Proof.
  intros H. apply Permutation_length. unfold rows_like.
  apply filter_Permutation. exact H.
Qed.

(** The counts of a merged frame. *)
Lemma merged_rows_like (existing df : frame) (r : row) :
  length (rows_like r (sort_index (drop_duplicates (concat existing df))))
  = if existsb (fun y => same_row r y.2) (existing ++ df) then 1%nat else 0%nat.
Proof.
  rewrite (rows_like_Permutation r _ _ (sort_index_Permutation _)).
  unfold drop_duplicates, concat. rewrite rows_like_drop_duplicates_from. reflexivity.
Qed.

Lemma saved_rows_from_inputs (existing df : frame) :
  forall x, x ∈ save_historical_data (Some existing) df -> x ∈ existing ++ df.
Proof.
  unfold save_historical_data. intros x Hx. rewrite sort_index_Permutation in Hx.
  assert (Hsub : drop_duplicates (concat existing df) `sublist_of` existing ++ df)
    by apply drop_duplicates_from_sublist.
  apply (sublist_subseteq _ _ Hsub). exact Hx.
Qed.

Lemma saved_rows_once (existing df : frame) :
  forall x, x ∈ existing ++ df ->
            length (rows_like x.2 (save_historical_data (Some existing) df)) = 1%nat.
Proof.
  unfold save_historical_data. intros x Hx.
  rewrite merged_rows_like, (existsb_rows_elem x _ Hx). reflexivity.
Qed.

(** X12.  The frame [save_historical_data] writes from a history and a
    fresh frame invents no row, and holds exactly one row for each set of
    values found in the inputs: of the rows that agree in every column only
    one is kept, whatever their dates.  It is also the merged frame of
    [calculate_all_metrics] when the history is not empty. *)
Theorem merge_keeps_one_row_per_values (existing df : frame) :
  (forall x, x ∈ save_historical_data (Some existing) df -> x ∈ existing ++ df) /\
  (forall x, x ∈ existing ++ df ->
             length (rows_like x.2 (save_historical_data (Some existing) df)) = 1%nat) /\
  (forall r, (length (rows_like r (save_historical_data (Some existing) df)) <= 1)%nat) /\
  (length (save_historical_data (Some existing) df) <= length existing + length df)%nat /\
  (existing <> [] ->
   full_df (Some existing) df = save_historical_data (Some existing) df).
Proof.
  unfold save_historical_data.
  assert (Hsub : drop_duplicates (concat existing df) `sublist_of` existing ++ df)
    by apply drop_duplicates_from_sublist.
  split; [|split; [|split; [|split]]].
  - intros x Hx. apply (saved_rows_from_inputs existing df x). exact Hx.
  - intros x Hx. apply (saved_rows_once existing df x). exact Hx.
  - intros r. rewrite merged_rows_like. destruct (existsb _ _); lia.
  - rewrite (Permutation_length (sort_index_Permutation _)).
    rewrite <- length_app. apply sublist_length. exact Hsub.
  - intros Hne. destruct existing as [|x h]; [contradiction|]. reflexivity.
Qed.

Lemma merge_keeps_one_row_per_values_witness :
  full_df (Some [(1%Z, [Fin 5]); (2%Z, [Fin 7])]) [(2%Z, [Fin 7]); (3%Z, [Fin 9])]
  = save_historical_data (Some [(1%Z, [Fin 5]); (2%Z, [Fin 7])]) [(2%Z, [Fin 7]); (3%Z, [Fin 9])].
Proof.
  destruct (merge_keeps_one_row_per_values
              [(1%Z, [Fin 5]); (2%Z, [Fin 7])] [(2%Z, [Fin 7]); (3%Z, [Fin 9])])
    as (_ & _ & _ & _ & H).
  apply H. discriminate.
Defined.

Lemma merge_sorted_witness :
  sorted_by_date (full_df (Some [(3%Z, [Fin 5]); (1%Z, [Fin 7])]) [(2%Z, [Fin 8])]).
Proof.
  destruct (merge_sorted [(3%Z, [Fin 5]); (1%Z, [Fin 7])] [(2%Z, [Fin 8])]) as [_ H].
  apply H. discriminate.
Defined.

(** ** The real gold price *)

Lemma iloc_first (s : series) (x : pyfloat) : s !! 0%nat = Some x -> iloc s 0 = Ok x.
Proof.
  intros Hx. destruct s as [|y s']; [discriminate|].
  simpl in Hx. inversion Hx; subst. reflexivity.
Qed.

Lemma iloc_empty (k : Z) : iloc [] k = Raise IndexError.
Proof.
  unfold iloc. cbn [length lookup list_lookup Z.of_nat].
  destruct (_ && _); reflexivity.
Qed.

(** The real gold price at one date. *)
Lemma calculate_real_gold_price_lookup (df : gmap string series)
    (gold_spot cpi : series) (first_cpi g c : pyfloat) (i : nat) :
  df !! "gold_spot" = Some gold_spot ->
  df !! "cpi" = Some cpi ->
  cpi !! 0%nat = Some first_cpi ->
  gold_spot !! i = Some g ->
  cpi !! i = Some c ->
  exists real_gold,
    calculate_real_gold_price df = Ok real_gold /\
    length real_gold = (length gold_spot `min` length cpi)%nat /\
    real_gold !! i = Some (fdiv g (fdiv (fmul (fdiv c first_cpi) (Fin 100)) (Fin 100))).
Proof.
  intros Hg Hc H0 Hgi Hci. unfold calculate_real_gold_price.
  rewrite Hg, Hc, (iloc_first cpi first_cpi H0). simpl.
  eexists. split; [reflexivity|]. split.
  - rewrite length_zip_with, !length_fmap. reflexivity.
  - rewrite lookup_zip_with, Hgi, !list_lookup_fmap, Hci. reflexivity.
Qed.

Lemma Qsign_nonzero (x : Q) : ~ x == 0 -> Qsign x <> Eq.
Proof. unfold Qsign. intros H E. apply H. apply Qeq_alt. exact E. Qed.

Lemma fdiv_Fin (x y : Q) : ~ y == 0 -> fdiv (Fin x) (Fin y) = Fin (x / y).
Proof.
  intros H. simpl. pose proof (Qsign_nonzero y H) as Hs.
  destruct (Qsign y); [contradiction | reflexivity | reflexivity].
Qed.

(** X14.  The real gold price is counted in the money of the first date:
    with a first CPI that is a number other than zero, it is the gold price
    itself on the first date and on every date whose CPI equals the first
    one.  The division by the CPI is not guarded: at a date whose CPI is
    zero the real gold price of a gold price other than zero is an
    infinity. *)
Theorem real_gold_price_at_base_and_zero_cpi (df : gmap string series)
    (gold_spot cpi : series) (i : nat) (g b c : Q) :
  df !! "gold_spot" = Some gold_spot ->
  df !! "cpi" = Some cpi ->
  cpi !! 0%nat = Some (Fin b) -> ~ b == 0 ->
  gold_spot !! i = Some (Fin g) ->
  cpi !! i = Some (Fin c) ->
  exists real_gold,
    calculate_real_gold_price df = Ok real_gold /\
    (c == b -> exists q, real_gold !! i = Some (Fin q) /\ q == g) /\
    (i = 0%nat -> exists q, real_gold !! i = Some (Fin q) /\ q == g) /\
    (c == 0 -> ~ g == 0 ->
     real_gold !! i = Some PInf \/ real_gold !! i = Some NInf).
Proof.
  intros Hg Hc H0 Hb Hgi Hci.
  destruct (calculate_real_gold_price_lookup df gold_spot cpi (Fin b) (Fin g) (Fin c) i
              Hg Hc H0 Hgi Hci) as (real_gold & Hok & _ & Hlook).
  rewrite (fdiv_Fin c b Hb) in Hlook. cbn [fmul] in Hlook.
  rewrite (fdiv_Fin (c / b * 100) 100) in Hlook by discriminate.
  exists real_gold. split; [exact Hok|].
  assert (Hbase : c == b -> exists q, real_gold !! i = Some (Fin q) /\ q == g).
  { intros Hcb.
    assert (Hnorm : ~ c / b * 100 / 100 == 0).
    { rewrite Hcb. intros E. apply Q_apart_0_1.
      rewrite <- E. field. exact Hb. }
    rewrite (fdiv_Fin g _ Hnorm) in Hlook.
    exists (g / (c / b * 100 / 100)). split; [exact Hlook|].
    rewrite Hcb. field. exact Hb. }
  split; [exact Hbase|]. split.
  - intros ->. apply Hbase. rewrite H0 in Hci. inversion Hci. reflexivity.
  - intros Hzero Hgz. rewrite Hlook. cbn [fdiv].
    assert (Hden : Qsign (c / b * 100 / 100) = Eq).
    { unfold Qsign. apply Qeq_alt. rewrite Hzero. unfold Qdiv. ring. }
    rewrite Hden. pose proof (Qsign_nonzero g Hgz) as Hs.
    destruct (Qsign g); [contradiction | right; reflexivity | left; reflexivity].
Qed.

Lemma real_gold_price_at_base_and_zero_cpi_witness :
  exists real_gold,
    calculate_real_gold_price
      (<["gold_spot" := [Fin 2000; Fin 2100; Fin 2200]]>
         (<["cpi" := [Fin 300; Fin 300; Fin 0]]> ∅))
    = Ok real_gold /\
    (exists q, real_gold !! 1%nat = Some (Fin q) /\ q == 2100).
Proof.
  destruct (real_gold_price_at_base_and_zero_cpi
              (<["gold_spot" := [Fin 2000; Fin 2100; Fin 2200]]>
                 (<["cpi" := [Fin 300; Fin 300; Fin 0]]> ∅))
              [Fin 2000; Fin 2100; Fin 2200] [Fin 300; Fin 300; Fin 0] 1 2100 300 300)
    as (real_gold & Hok & Hbase & _);
    try (vm_compute; reflexivity); try discriminate.
  exists real_gold. split; [exact Hok|]. apply Hbase. reflexivity.
Defined.

Lemma fdiv_nan_of_nan_normalised (g c : pyfloat) :
  fdiv g (fdiv (fmul (fdiv c NaN) (Fin 100)) (Fin 100)) = NaN.
Proof. rewrite fdiv_nan_r. simpl. apply fdiv_nan_r. Qed.

Lemma calculate_real_gold_price_no_column (df : gmap string series) :
  df !! "gold_spot" = None \/ df !! "cpi" = None ->
  calculate_real_gold_price df = Ok [].
Proof.
  unfold calculate_real_gold_price. intros [H|H]; rewrite H; [reflexivity|].
  destruct (df !! "gold_spot"); reflexivity.
Qed.

(** X15.  The edges of [calculate_real_gold_price]: without one of the two
    columns the result is the empty series; with both columns and no row it
    raises [IndexError]; and when the CPI of the first date is missing the
    real gold price is missing at every date, whatever the later CPI
    values are. *)
Theorem real_gold_price_edges (df : gmap string series) :
  (df !! "gold_spot" = None \/ df !! "cpi" = None ->
   calculate_real_gold_price df = Ok []) /\
  (forall gold_spot,
      df !! "gold_spot" = Some gold_spot -> df !! "cpi" = Some [] ->
      calculate_real_gold_price df = Raise IndexError) /\
  (forall gold_spot cpi,
      df !! "gold_spot" = Some gold_spot -> df !! "cpi" = Some cpi ->
      cpi !! 0%nat = Some NaN ->
      exists real_gold,
        calculate_real_gold_price df = Ok real_gold /\
        length real_gold = (length gold_spot `min` length cpi)%nat /\
        forall i x, real_gold !! i = Some x -> x = NaN).
Proof.
  split; [|split].
  - apply calculate_real_gold_price_no_column.
  - intros gold_spot Hg Hc. unfold calculate_real_gold_price.
    rewrite Hg, Hc, iloc_empty. reflexivity.
  - intros gold_spot cpi Hg Hc H0. unfold calculate_real_gold_price.
    rewrite Hg, Hc, (iloc_first cpi NaN H0). simpl.
    eexists. split; [reflexivity|]. split.
    + rewrite length_zip_with, !length_fmap. reflexivity.
    + intros i x. rewrite lookup_zip_with, !list_lookup_fmap.
      destruct (gold_spot !! i) as [g|]; [|discriminate].
      destruct (cpi !! i) as [c|]; [|discriminate].
      simpl. intros E. inversion E. apply fdiv_nan_of_nan_normalised.
Qed.

Lemma real_gold_price_edges_witness :
  calculate_real_gold_price (<["gold_spot" := [Fin 2000]]> ∅) = Ok [].
Proof.
  destruct (real_gold_price_edges (<["gold_spot" := [Fin 2000]]> ∅)) as [H _].
  apply H. right. reflexivity.
Defined.

(** ** The z-score entry and the valuation category *)

Lemma fsub_nan_l (b : pyfloat) : fsub NaN b = NaN.
Proof. destruct b; reflexivity. Qed.

Lemma last_lookup_length {A : Type} (l : list A) (x : A) :
  last l = Some x -> l !! (length l - 1)%nat = Some x.
Proof.
  rewrite last_lookup. replace (pred (length l)) with (length l - 1)%nat by lia. auto.
Qed.

(** The last z-score is undefined when the series is shorter than
    [min_periods], or ends in a missing value. *)
Lemma last_zscore_undefined sqrtQ (s : series) (window min_periods : nat) (v : pyfloat) :
  (min_periods <= window)%nat ->
  last s = Some v ->
  (length s < min_periods)%nat \/ v = NaN ->
  exists z, calculate_zscore sqrtQ s window min_periods = Ok z /\ last z = Some NaN.
Proof.
  intros Hmw Hlast Hwhy.
  pose proof (last_lookup_length s v Hlast) as Hv.
  destruct (calculate_zscore_lookup sqrtQ s window min_periods (length s - 1) v Hmw Hv)
    as (z & Hz & Hlen & Hlook).
  exists z. split; [exact Hz|].
  rewrite last_lookup, Hlen.
  replace (pred (length s)) with (length s - 1)%nat by lia.
  rewrite Hlook. f_equal.
  destruct Hwhy as [Hshort | ->].
  - unfold window_mean.
    pose proof (length_observations_le (window_at s window (length s - 1))).
    pose proof (length_window_at_le s window (length s - 1)).
    pose proof (lookup_lt_Some _ _ _ Hv) as Hs.
    destruct (Nat.leb_spec min_periods
                (length (observations (window_at s window (length s - 1))))); [lia|].
    simpl. rewrite fsub_nan_r. apply fdiv_nan_l.
  - rewrite fsub_nan_l. apply fdiv_nan_l.
Qed.

(** X16.  With less than a year of rows (fewer than 252), or with a CPI
    that is missing on the first date, [calculate_all_metrics] stores
    [None] under 'real_gold_zscore', and the valuation category of the
    scorer then appends nothing and leaves the score as it is; without the
    gold or the CPI column nothing is stored at all. *)
Theorem short_history_has_no_valuation sqrtQ (df : gmap string series)
    (metrics : gmap string pyval) (s : scorer) :
  (df !! "gold_spot" = None \/ df !! "cpi" = None ->
   real_gold_zscore_entry sqrtQ df = Ok None) /\
  (forall gold_spot cpi,
      df !! "gold_spot" = Some gold_spot -> df !! "cpi" = Some cpi ->
      length gold_spot = length cpi -> (0 < length cpi)%nat ->
      (length cpi < 252)%nat \/ cpi !! 0%nat = Some NaN ->
      real_gold_zscore_entry sqrtQ df = Ok (Some PyNone) /\
      valuation (store_entry "real_gold_zscore" (Some PyNone) metrics) s = s).
Proof.
  split.
  - intros Hnone. unfold real_gold_zscore_entry.
    rewrite (calculate_real_gold_price_no_column df Hnone). reflexivity.
  - intros gold_spot cpi Hg Hc Hlen Hpos Hwhy. split.
    2:{ unfold valuation, store_entry, dict_get. rewrite lookup_insert_eq. reflexivity. }
    destruct (lookup_lt_is_Some_2 cpi 0 Hpos) as [first_cpi H0].
    assert (Hlast : exists g c, gold_spot !! (length cpi - 1)%nat = Some g /\
                                cpi !! (length cpi - 1)%nat = Some c).
    { destruct (lookup_lt_is_Some_2 gold_spot (length cpi - 1)) as [g Hgl]; [lia|].
      destruct (lookup_lt_is_Some_2 cpi (length cpi - 1)) as [c Hcl]; [lia|]. eauto. }
    destruct Hlast as (g & c & Hgl & Hcl).
    destruct (calculate_real_gold_price_lookup df gold_spot cpi first_cpi g c
                (length cpi - 1) Hg Hc H0 Hgl Hcl) as (real_gold & Hok & Hrlen & Hrlook).
    assert (Hrl : length real_gold = length cpi) by lia.
    unfold real_gold_zscore_entry. rewrite Hok. cbn [bind].
    destruct real_gold as [|x rest] eqn:Hrg; [simpl in Hrl; lia|]. rewrite <- Hrg in *.
    assert (Hlastr : last real_gold
                     = Some (fdiv g (fdiv (fmul (fdiv c first_cpi) (Fin 100)) (Fin 100)))).
    { rewrite last_lookup, Hrl.
      replace (pred (length cpi)) with (length cpi - 1)%nat by lia. exact Hrlook. }
    destruct (last_zscore_undefined sqrtQ real_gold 1260 252 _ ltac:(lia) Hlastr)
      as (z & Hz & Hzl).
    { destruct Hwhy as [Hshort|Hnan]; [left; lia|right].
      rewrite H0 in Hnan. inversion Hnan; subst. apply fdiv_nan_of_nan_normalised. }
    rewrite Hz. cbn [bind]. rewrite Hzl. reflexivity.
Qed.

Lemma short_history_has_no_valuation_witness :
  real_gold_zscore_entry sqrt_down
    (<["gold_spot" := [Fin 2000; Fin 2100]]> (<["cpi" := [Fin 300; Fin 315]]> ∅))
  = Ok (Some PyNone).
Proof.
  destruct (short_history_has_no_valuation sqrt_down
              (<["gold_spot" := [Fin 2000; Fin 2100]]> (<["cpi" := [Fin 300; Fin 315]]> ∅))
              ∅ start) as [_ H].
  assert (Hlen : (0 < length [Fin 300; Fin 315])%nat) by (simpl; lia).
  assert (Hshort : (length [Fin 300; Fin 315] < 252)%nat) by (simpl; lia).
  exact (proj1 (H [Fin 2000; Fin 2100] [Fin 300; Fin 315] eq_refl eq_refl eq_refl
                  Hlen (or_introl Hshort))).
Defined.

(** ** The momentum entries *)


Lemma stored_momenta_cons metric (column : series) p rest metrics :
  stored_momenta metric column (p :: rest) metrics
  = stored_momenta metric column rest
      (match iloc_momentum column (Z.to_nat p.2) with
       | Some m => <[momentum_key metric p.1 := PyNum m]> metrics
       | None => metrics
       end).
Proof. reflexivity. Qed.

Lemma stored_entries_cons df metric rest metrics :
  stored_entries df (metric :: rest) metrics
  = stored_entries df rest
      (match df !! metric with
       | Some column => stored_momenta metric column momentum_periods metrics
       | None => metrics
       end).
Proof. reflexivity. Qed.

Lemma store_momenta_pure metric (column : series) periods metrics :
  Forall (fun p : string * Z => (1 <= p.2)%Z) periods ->
  store_momenta metric column periods metrics
  = Ok (stored_momenta metric column periods metrics).
Proof.
  intros Hall. revert metrics.
  induction Hall as [|[period_name days] rest Hday Hrest IH]; intros metrics.
  - reflexivity.
  - cbn [store_momenta]. rewrite (calculate_momentum_total column days Hday). cbn [bind].
    rewrite IH. reflexivity.
Qed.

Lemma momentum_periods_positive :
  Forall (fun p : string * Z => (1 <= p.2)%Z) momentum_periods.
Proof. repeat constructor; simpl; lia. Qed.

Lemma momentum_loop_pure df names metrics :
  momentum_loop df names metrics = Ok (stored_entries df names metrics).
Proof.
  revert metrics. induction names as [|metric rest IH]; intros metrics; [reflexivity|].
  cbn [momentum_loop]. rewrite stored_entries_cons.
  destruct (df !! metric) as [column|].
  - rewrite (store_momenta_pure _ _ _ _ momentum_periods_positive). cbn [bind]. apply IH.
  - cbn [bind]. apply IH.
Qed.

(** A key the loop does not write keeps its entry. *)
Lemma stored_momenta_other metric (column : series) periods metrics (k : string) :
  (forall p, p ∈ periods -> momentum_key metric p.1 <> k) ->
  stored_momenta metric column periods metrics !! k = metrics !! k.
Proof.
  revert metrics. induction periods as [|p rest IH]; intros metrics Hother; [reflexivity|].
  rewrite stored_momenta_cons.
  rewrite IH by (intros q Hq; apply Hother; apply elem_of_cons; right; exact Hq).
  destruct (iloc_momentum column (Z.to_nat p.2)); [|reflexivity].
  apply lookup_insert_ne. apply Hother. apply elem_of_cons. left. reflexivity.
Qed.

Lemma stored_entries_other df names metrics (k : string) :
  (forall metric p, metric ∈ names -> p ∈ momentum_periods ->
                    momentum_key metric p.1 <> k) ->
  stored_entries df names metrics !! k = metrics !! k.
Proof.
  revert metrics. induction names as [|metric rest IH]; intros metrics Hother; [reflexivity|].
  rewrite stored_entries_cons.
  rewrite IH
    by (intros m p Hm Hp; apply Hother; [apply elem_of_cons; right; exact Hm | exact Hp]).
  destruct (df !! metric) as [column|]; [|reflexivity].
  apply stored_momenta_other. intros p Hp. apply Hother; [|exact Hp].
  apply elem_of_cons. left. reflexivity.
Qed.

(** The loop stores numbers only. *)
Lemma stored_momenta_no_none metric (column : series) periods metrics (k : string) :
  stored_momenta metric column periods metrics !! k = Some PyNone ->
  metrics !! k = Some PyNone.
Proof.
  revert metrics. induction periods as [|p rest IH]; intros metrics; [auto|].
  rewrite stored_momenta_cons.
  intros H. apply IH in H.
  destruct (iloc_momentum column (Z.to_nat p.2)); [|exact H].
  destruct (decide (momentum_key metric p.1 = k)) as [E|Hne].
  - subst k. rewrite lookup_insert_eq in H. discriminate.
  - rewrite lookup_insert_ne in H by exact Hne. exact H.
Qed.

Lemma stored_entries_no_none df names metrics (k : string) :
  stored_entries df names metrics !! k = Some PyNone ->
  metrics !! k = Some PyNone.
Proof.
  revert metrics. induction names as [|metric rest IH]; intros metrics; [auto|].
  rewrite stored_entries_cons.
  intros H. apply IH in H.
  destruct (df !! metric) as [column|]; [|exact H].
  apply stored_momenta_no_none in H. exact H.
Qed.

(** The 30-day entry of one column. *)
Lemma stored_momenta_30d metric (column : series) metrics :
  momentum_key metric "60d" <> momentum_key metric "30d" ->
  momentum_key metric "90d" <> momentum_key metric "30d" ->
  stored_momenta metric column momentum_periods metrics !! momentum_key metric "30d"
  = match iloc_momentum column 30 with
    | Some m => Some (PyNum m)
    | None => metrics !! momentum_key metric "30d"
    end.
Proof.
  intros H60 H90. unfold stored_momenta, momentum_periods. cbn [foldl fst snd].
  change (Z.to_nat 30) with 30%nat.
  destruct (iloc_momentum column (Z.to_nat 90));
    [rewrite lookup_insert_ne by exact H90|];
    (destruct (iloc_momentum column (Z.to_nat 60));
     [rewrite lookup_insert_ne by exact H60|]);
    (destruct (iloc_momentum column 30); [apply lookup_insert_eq | reflexivity]).
Qed.

Lemma real_yield_key_untouched_by_others :
  forall metric p,
    metric ∈ ["dxy"; "gold_spot"; "vix"; "gpr"]%string -> p ∈ momentum_periods ->
    momentum_key metric p.1 <> "real_yield_momentum_30d"%string.
Proof.
  intros metric p Hm Hp.
  repeat (apply elem_of_cons in Hm as [->|Hm]);
    try (repeat (apply elem_of_cons in Hp as [->|Hp]); try discriminate;
         apply elem_of_nil in Hp; contradiction).
  apply elem_of_nil in Hm. contradiction.
Qed.

Lemma dxy_key_untouched_by_others :
  forall metric p,
    metric ∈ ["gold_spot"; "vix"; "gpr"]%string -> p ∈ momentum_periods ->
    momentum_key metric p.1 <> "dxy_momentum_30d"%string.
Proof.
  intros metric p Hm Hp.
  repeat (apply elem_of_cons in Hm as [->|Hm]);
    try (repeat (apply elem_of_cons in Hp as [->|Hp]); try discriminate;
         apply elem_of_nil in Hp; contradiction).
  apply elem_of_nil in Hm. contradiction.
Qed.

Lemma dxy_key_untouched_by_real_yield :
  forall p, p ∈ momentum_periods ->
            momentum_key "real_yield" p.1 <> "dxy_momentum_30d"%string.
Proof.
  intros p _. unfold momentum_key. discriminate.
Qed.

(** X17.  The momentum loop of [calculate_all_metrics] never raises and
    never stores [None].  Started on a dict without the two keys, it leaves
    under 'real_yield_momentum_30d' the momentum of the real-yield column
    over [iloc[-30]] when that column is there and its momentum is defined,
    and no entry otherwise; likewise for 'dxy_momentum_30d'. *)
Theorem momentum_entries_stored (df : gmap string series) (metrics : gmap string pyval) :
  metrics !! "real_yield_momentum_30d" = None ->
  metrics !! "dxy_momentum_30d" = None ->
  exists metrics',
    momentum_entries df metrics = Ok metrics' /\
    metrics' !! "real_yield_momentum_30d" = momentum_of df "real_yield" 30 /\
    metrics' !! "dxy_momentum_30d" = momentum_of df "dxy" 30 /\
    (forall k, metrics' !! k = Some PyNone -> metrics !! k = Some PyNone).
Proof.
  intros Hry Hdxy. unfold momentum_entries. rewrite momentum_loop_pure.
  eexists. split; [reflexivity|]. split; [|split].
  - unfold momentum_metrics. rewrite stored_entries_cons.
    rewrite stored_entries_other by exact real_yield_key_untouched_by_others.
    unfold momentum_of. destruct (df !! "real_yield") as [column|]; [|exact Hry].
    change "real_yield_momentum_30d"%string with (momentum_key "real_yield" "30d").
    rewrite stored_momenta_30d by discriminate.
    rewrite (calculate_momentum_total column (Z.of_nat 30)) by lia.
    change (Z.to_nat (Z.of_nat 30)) with 30%nat.
    destruct (iloc_momentum column 30); [reflexivity | exact Hry].
  - unfold momentum_metrics. rewrite stored_entries_cons.
    rewrite stored_entries_cons.
    rewrite stored_entries_other by exact dxy_key_untouched_by_others.
    assert (Hafter : match df !! "real_yield" with
                     | Some column => stored_momenta "real_yield" column momentum_periods metrics
                     | None => metrics
                     end !! "dxy_momentum_30d" = None).
    { destruct (df !! "real_yield") as [column|]; [|exact Hdxy].
      rewrite stored_momenta_other by exact dxy_key_untouched_by_real_yield. exact Hdxy. }
    unfold momentum_of. destruct (df !! "dxy") as [column|]; [|exact Hafter].
    change "dxy_momentum_30d"%string with (momentum_key "dxy" "30d").
    rewrite stored_momenta_30d by discriminate.
    rewrite (calculate_momentum_total column (Z.of_nat 30)) by lia.
    change (Z.to_nat (Z.of_nat 30)) with 30%nat.
    destruct (iloc_momentum column 30); [reflexivity | exact Hafter].
  - intros k. apply stored_entries_no_none.
Qed.

Lemma momentum_entries_stored_witness :
  exists metrics',
    momentum_entries (<["real_yield" := [Fin 2; Fin 1]]> ∅) ∅ = Ok metrics' /\
    metrics' !! "real_yield_momentum_30d" = None.
Proof.
  destruct (momentum_entries_stored (<["real_yield" := [Fin 2; Fin 1]]> ∅) ∅
              (lookup_empty _) (lookup_empty _))
    as (metrics' & Hok & Hry & _).
  exists metrics'. split; [exact Hok|]. rewrite Hry. reflexivity.
Defined.

(** What the scorer makes of an entry of the momentum loop. *)
Lemma real_yields_one_entry (metrics : gmap string pyval) (s : scorer) :
  metrics !! "real_yield_momentum_30d" <> Some PyNone ->
  length (sc_components (real_yields metrics s)) = S (length (sc_components s)).
Proof.
  intros Hnone. unfold real_yields, dict_get.
  destruct (metrics !! "real_yield_momentum_30d") as [[|ry]|]; [congruence| |];
    repeat branch; simpl; rewrite length_app; simpl; lia.
Qed.

Lemma usd_strength_one_entry (metrics : gmap string pyval) (s : scorer) :
  metrics !! "dxy_momentum_30d" <> Some PyNone ->
  length (sc_components (usd_strength metrics s)) = S (length (sc_components s)).
Proof.
  intros Hnone. unfold usd_strength, dict_get.
  destruct (metrics !! "dxy_momentum_30d") as [[|dxy]|]; [congruence| |];
    repeat branch; simpl; rewrite length_app; simpl; lia.
Qed.

(** X18.  On the dict the momentum loop builds the scorer always adds a
    real-yield entry and a dollar entry, whatever the columns hold; when a
    column is missing or has fewer than 30 rows its entry is the neutral one
    ('Real yields stable', 'USD stable') and the score does not move. *)
Theorem momentum_is_always_scored (df : gmap string series) (metrics : gmap string pyval) :
  metrics !! "real_yield_momentum_30d" = None ->
  metrics !! "dxy_momentum_30d" = None ->
  exists metrics',
    momentum_entries df metrics = Ok metrics' /\
    (forall s, length (sc_components (real_yields metrics' s))
               = S (length (sc_components s))) /\
    (forall s, length (sc_components (usd_strength metrics' s))
               = S (length (sc_components s))) /\
    ((forall column, df !! "real_yield" = Some column -> (length column < 30)%nat) ->
     forall s, real_yields metrics' s = append ("Real yields stable", 0, "➖") s) /\
    ((forall column, df !! "dxy" = Some column -> (length column < 30)%nat) ->
     forall s, usd_strength metrics' s = append ("USD stable", 0, "➖") s).
Proof.
  intros Hry Hdxy.
  assert (Hloop : momentum_entries df metrics
                  = Ok (stored_entries df momentum_metrics metrics))
    by apply momentum_loop_pure.
  exists (stored_entries df momentum_metrics metrics).
  split; [exact Hloop|].
  assert (Hnone : forall k, stored_entries df momentum_metrics metrics !! k = Some PyNone ->
                            metrics !! k = Some PyNone)
    by (intros k; apply stored_entries_no_none).
  split; [|split; [|split]].
  - intros s. apply real_yields_one_entry. intros E. apply Hnone in E. congruence.
  - intros s. apply usd_strength_one_entry. intros E. apply Hnone in E. congruence.
  - intros Hshort s.
    assert (E : stored_entries df momentum_metrics metrics !! "real_yield_momentum_30d" = None).
    { unfold momentum_metrics. rewrite stored_entries_cons.
      rewrite stored_entries_other by exact real_yield_key_untouched_by_others.
      destruct (df !! "real_yield") as [column|] eqn:Ecol; [|exact Hry].
      change "real_yield_momentum_30d"%string with (momentum_key "real_yield" "30d").
      rewrite stored_momenta_30d by discriminate.
      unfold iloc_momentum.
      destruct (Nat.ltb_spec (length column) 30) as [_|Hge];
        [exact Hry | specialize (Hshort column eq_refl); lia]. }
    unfold real_yields, dict_get. rewrite E. reflexivity.
  - intros Hshort s.
    assert (E : stored_entries df momentum_metrics metrics !! "dxy_momentum_30d" = None).
    { unfold momentum_metrics. rewrite stored_entries_cons.
      rewrite stored_entries_cons.
    rewrite stored_entries_other by exact dxy_key_untouched_by_others.
      assert (Hafter : match df !! "real_yield" with
                       | Some column =>
                           stored_momenta "real_yield" column momentum_periods metrics
                       | None => metrics
                       end !! "dxy_momentum_30d" = None).
      { destruct (df !! "real_yield") as [column|]; [|exact Hdxy].
        rewrite stored_momenta_other by exact dxy_key_untouched_by_real_yield. exact Hdxy. }
      destruct (df !! "dxy") as [column|] eqn:Ecol; [|exact Hafter].
      change "dxy_momentum_30d"%string with (momentum_key "dxy" "30d").
      rewrite stored_momenta_30d by discriminate.
      unfold iloc_momentum.
      destruct (Nat.ltb_spec (length column) 30) as [_|Hge];
        [exact Hafter | specialize (Hshort column eq_refl); lia]. }
    unfold usd_strength, dict_get. rewrite E. reflexivity.
Qed.

Lemma momentum_is_always_scored_witness :
  exists metrics',
    momentum_entries (<["real_yield" := [Fin 2; Fin 1]]> ∅) ∅ = Ok metrics' /\
    real_yields metrics' start = append ("Real yields stable", 0, "➖") start.
Proof.
  destruct (momentum_is_always_scored (<["real_yield" := [Fin 2; Fin 1]]> ∅) ∅
              (lookup_empty _) (lookup_empty _)) as (metrics' & Hok & _ & _ & Hshort & _).
  exists metrics'. split; [exact Hok|]. apply Hshort.
  intros column E. rewrite lookup_insert_eq in E. inversion E. simpl. lia.
Defined.

(** ** The z-score over time and on a flat series *)

Lemma calculate_zscore_length sqrtQ (s : series) (window min_periods : nat) z :
  calculate_zscore sqrtQ s window min_periods = Ok z -> length z = length s.
Proof.
  unfold calculate_zscore. destruct (window <? min_periods)%nat; [discriminate|].
  intros E. inversion E. unfold replace_zero, rolling.
  rewrite !length_zip_with, !length_fmap, !length_seq. lia.
Qed.

Lemma calculate_zscore_returns sqrtQ (s : series) (window min_periods : nat) :
  (min_periods <= window)%nat ->
  exists z, calculate_zscore sqrtQ s window min_periods = Ok z.
Proof.
  intros Hmw. unfold calculate_zscore.
  destruct (Nat.ltb_spec window min_periods) as [Hlt|_]; [lia|]. eexists. reflexivity.
Qed.

Lemma window_at_app (s later : series) (window i : nat) :
  (i < length s)%nat -> window_at (s ++ later) window i = window_at s window i.
Proof. intros Hi. unfold window_at. rewrite take_app_le by lia. reflexivity. Qed.

(** X19.  The z-score never looks ahead: rows added after a date leave the
    z-scores up to that date as they were, so the z-scores of a history are
    the first part of the z-scores of the history with more data behind it. *)
Theorem zscore_of_history_is_final sqrtQ (s later : series) (window min_periods : nat) :
  (min_periods <= window)%nat ->
  exists z z',
    calculate_zscore sqrtQ s window min_periods = Ok z /\
    calculate_zscore sqrtQ (s ++ later) window min_periods = Ok z' /\
    take (length s) z' = z.
Proof.
  intros Hmw.
  destruct (calculate_zscore_returns sqrtQ s window min_periods Hmw) as (z & Hz).
  destruct (calculate_zscore_returns sqrtQ (s ++ later) window min_periods Hmw) as (z' & Hz').
  exists z, z'. split; [exact Hz|]. split; [exact Hz'|].
  pose proof (calculate_zscore_length _ _ _ _ _ Hz) as Hlen.
  apply list_eq. intros i.
  destruct (s !! i) as [value|] eqn:Hi.
  - assert (Hlt : (i < length s)%nat) by (apply lookup_lt_is_Some; eauto).
    destruct (calculate_zscore_lookup sqrtQ s window min_periods i value Hmw Hi)
      as (z0 & Hz0 & _ & Hlook).
    assert (Hi' : (s ++ later) !! i = Some value) by (rewrite lookup_app_l; assumption).
    destruct (calculate_zscore_lookup sqrtQ (s ++ later) window min_periods i value Hmw Hi')
      as (z1 & Hz1 & _ & Hlook').
    rewrite Hz in Hz0. inversion Hz0. subst z0.
    rewrite Hz' in Hz1. inversion Hz1. subst z1.
    rewrite lookup_take_lt by assumption.
    rewrite Hlook', Hlook, window_at_app by assumption. reflexivity.
  - apply lookup_ge_None in Hi.
    rewrite lookup_take_ge by assumption.
    symmetry. apply lookup_ge_None. lia.
Qed.

Lemma zscore_of_history_is_final_witness :
  exists z z',
    calculate_zscore sqrt_down [Fin 1; Fin 2; Fin 4] 3 2 = Ok z /\
    calculate_zscore sqrt_down ([Fin 1; Fin 2; Fin 4] ++ [Fin 100; NaN]) 3 2 = Ok z' /\
    take 3 z' = z.
Proof.
  apply (zscore_of_history_is_final sqrt_down [Fin 1; Fin 2; Fin 4] [Fin 100; NaN] 3 2).
  lia.
Defined.

Lemma observations_replicate (k : nat) (c : Q) :
  observations (replicate k (Fin c)) = replicate k c.
Proof.
  unfold observations. induction k as [|k IH]; [reflexivity|].
  cbn. f_equal. exact IH.
Qed.

Lemma window_at_replicate (n window i : nat) (x : pyfloat) :
  window_at (replicate n x) window i
  = replicate (Nat.min (S i) n - (S i - window)) x.
Proof. unfold window_at. rewrite take_replicate, drop_replicate. reflexivity. Qed.

Lemma Qsum_replicate (k : nat) (c : Q) :
  Qsum (replicate k c) == inject_Z (Z.of_nat k) * c.
Proof.
  induction k as [|k IH].
  - simpl. ring.
  - cbn [replicate Qsum foldr]. fold (Qsum (replicate k c)). rewrite IH.
    rewrite Nat2Z.inj_succ, <- Z.add_1_r, inject_Z_plus. ring.
Qed.

Lemma mean_replicate (k : nat) (c : Q) : (0 < k)%nat -> mean (replicate k c) == c.
Proof.
  intros Hk. unfold mean, Qlen. rewrite Qsum_replicate, length_replicate.
  assert (Hne : ~ inject_Z (Z.of_nat k) == 0).
  { change 0 with (inject_Z 0). rewrite inject_Z_injective. lia. }
  field. exact Hne.
Qed.

Lemma Qsum_map_replicate_zero (f : Q -> Q) (k : nat) (c : Q) :
  f c == 0 -> Qsum (map f (replicate k c)) == 0.
Proof.
  intros Hf. induction k as [|k IH]; [reflexivity|].
  cbn [replicate map Qsum foldr]. fold (Qsum (map f (replicate k c))).
  rewrite Hf, IH. ring.
Qed.

(** The values of a flat window do not vary. *)
Lemma variance_replicate (k : nat) (c : Q) : variance (replicate k c) == 0.
Proof.
  unfold variance.
  assert (Hsum : Qsum (map (fun x => (x - mean (replicate k c)) * (x - mean (replicate k c)))
                           (replicate k c)) == 0).
  { destruct k as [|k]; [reflexivity|].
    apply Qsum_map_replicate_zero. rewrite mean_replicate by lia. ring. }
  unfold Qdiv. rewrite Hsum. ring.
Qed.

(** On a flat window the deviation is replaced by NaN, or is NaN already. *)
Lemma flat_window_std sqrtQ (min_periods k : nat) (c : Q) :
  (forall x, x == 0 -> sqrtQ x == 0) ->
  (let sd := window_std sqrtQ min_periods (replicate k c) in
   if fis_zero sd then NaN else sd) = NaN.
Proof.
  intros Hsqrt. cbv zeta. unfold window_std.
  destruct (_ && _); [|reflexivity].
  cbn [fis_zero].
  assert (Hz : Qeq_bool (sqrtQ (variance (replicate k c))) 0 = true).
  { apply Qeq_bool_iff. apply Hsqrt. apply variance_replicate. }
  rewrite Hz. reflexivity.
Qed.

(** X20.  A series whose values are all the same number has no z-score at
    any position: where the window is long enough its deviation is zero, the
    zero is replaced by NaN and nothing is divided by zero.  (The square root
    is taken to send zero to zero.) *)
Theorem flat_series_has_no_zscore sqrtQ (c : Q) (n window min_periods : nat) :
  (forall x, x == 0 -> sqrtQ x == 0) ->
  (min_periods <= window)%nat ->
  calculate_zscore sqrtQ (replicate n (Fin c)) window min_periods
  = Ok (replicate n NaN).
Proof.
  intros Hsqrt Hmw.
  destruct (calculate_zscore_returns sqrtQ (replicate n (Fin c)) window min_periods Hmw)
    as (z & Hz).
  rewrite Hz. f_equal.
  pose proof (calculate_zscore_length _ _ _ _ _ Hz) as Hlen.
  rewrite length_replicate in Hlen.
  apply list_eq. intros i.
  destruct (decide (i < n)%nat) as [Hi|Hi].
  - assert (Hv : replicate n (Fin c) !! i = Some (Fin c))
      by (apply lookup_replicate_2; assumption).
    destruct (calculate_zscore_lookup sqrtQ _ window min_periods i _ Hmw Hv)
      as (z0 & Hz0 & _ & Hlook).
    rewrite Hz in Hz0. inversion Hz0. subst z0.
    rewrite Hlook, lookup_replicate_2 by assumption.
    rewrite window_at_replicate, observations_replicate.
    rewrite (flat_window_std sqrtQ _ _ _ Hsqrt).
    rewrite fdiv_nan_r. reflexivity.
  - rewrite (lookup_ge_None_2 z i) by lia.
    symmetry. apply lookup_ge_None_2. rewrite length_replicate. lia.
Qed.

Lemma sqrt_down_zero (x : Q) : x == 0 -> sqrt_down x == 0.
Proof.
  intros Hx. unfold sqrt_down.
  assert (Hfloor : Qfloor (x * 1000000000000000000) = 0%Z).
  { rewrite Hx. reflexivity. }
  rewrite Hfloor. reflexivity.
Qed.

Lemma flat_series_has_no_zscore_witness :
  calculate_zscore sqrt_down (replicate 300 (Fin 1850)) 1260 252
  = Ok (replicate 300 NaN).
Proof.
  apply (flat_series_has_no_zscore sqrt_down 1850 300 1260 252 sqrt_down_zero). lia.
Defined.

(** ** The lookback of the momentum at its edges *)

(** X21.  [iloc[-days]] counts the last row as one day back.  So a one-day
    momentum compares the last value with itself and is zero whenever that
    value is a number other than zero; a lookback of zero days compares the
    last value with the first of the series; and on an empty series, which
    gives [None] for a lookback of a day or more, a lookback of zero or
    fewer days raises [IndexError]. *)
Theorem momentum_lookback_edges :
  (forall (s : series) (x : Q),
      last s = Some (Fin x) -> ~ x == 0 ->
      exists q, calculate_momentum s 1 = Ok (Some (Fin q)) /\ q == 0) /\
  (forall (s : series) (first current : pyfloat),
      s !! 0%nat = Some first -> last s = Some current ->
      calculate_momentum s 0
      = Ok (if isna current || isna first || fis_zero first then None
            else Some (fsub (fdiv current first) (Fin 1)))) /\
  (forall days : Z,
      calculate_momentum [] days
      = if (0 <? days)%Z then Ok None else Raise IndexError).
Proof.
  split; [|split].
  - intros s x Hlast Hx.
    pose proof (last_lookup_length s _ Hlast) as Hv.
    assert (Hlen : (0 < length s)%nat) by (pose proof (lookup_lt_Some _ _ _ Hv); lia).
    destruct (iloc_from_end s 1) as (v & Hv' & Hiloc); [lia|].
    change (Z.to_nat 1) with 1%nat in Hv'. rewrite Hv in Hv'. inversion Hv'. subst v.
    unfold calculate_momentum.
    destruct (Z.ltb_spec (Z.of_nat (length s)) 1) as [Hshort|_]; [lia|].
    destruct (Z.leb_spec 1 (Z.of_nat (length s))) as [_|Hgt]; [|lia].
    change (-1)%Z with (- (1))%Z. rewrite Hiloc. cbn [bind isna orb fis_zero].
    assert (Hnz : Qeq_bool x 0 = false).
    { apply not_true_is_false. intros E. apply Qeq_bool_iff in E. contradiction. }
    rewrite Hnz, (fdiv_Fin x x Hx). cbn [fsub].
    eexists. split; [reflexivity|]. field. exact Hx.
  - intros s first current Hfirst Hlast.
    pose proof (last_lookup_length s _ Hlast) as Hv.
    assert (Hlen : (0 < length s)%nat) by (pose proof (lookup_lt_Some _ _ _ Hv); lia).
    destruct (iloc_from_end s 1) as (v & Hv' & Hiloc); [lia|].
    change (Z.to_nat 1) with 1%nat in Hv'. rewrite Hv in Hv'. inversion Hv'. subst v.
    unfold calculate_momentum.
    destruct (Z.ltb_spec (Z.of_nat (length s)) 0) as [Hshort|_]; [lia|].
    destruct (Z.leb_spec 0 (Z.of_nat (length s))) as [_|Hgt]; [|lia].
    change (-1)%Z with (- (1))%Z. rewrite Hiloc.
    change (- 0)%Z with 0%Z. rewrite (iloc_first s first Hfirst). cbn [bind].
    destruct (isna current || isna first || fis_zero first); reflexivity.
  - intros days. unfold calculate_momentum.
    change (Z.of_nat (length (@nil pyfloat))) with 0%Z.
    destruct (0 <? days)%Z; [reflexivity|].
    rewrite iloc_empty. reflexivity.
Qed.

Lemma momentum_lookback_edges_witness :
  (exists q, calculate_momentum [Fin 100; Fin 120] 1 = Ok (Some (Fin q)) /\ q == 0) /\
  calculate_momentum [Fin 100; Fin 120] 0 = Ok (Some (Fin (120 / 100 - 1))).
Proof.
  destruct momentum_lookback_edges as (Hone & Hzero & _).
  split.
  - apply (Hone [Fin 100; Fin 120] 120); [reflexivity | discriminate].
  - exact (Hzero [Fin 100; Fin 120] (Fin 100) (Fin 120) eq_refl eq_refl).
Defined.
